(** * A shallow embedding of [mcp/mcp_client.py]

    The client connects to an MCP tool server over a Docker-bridged stdio
    transport or over streamable HTTP, lists prompts, resources and tools and
    calls one tool.  Everything the program does is a sequence of prints and
    of calls into the external [mcp] session object, wrapped in
    [try]/[except] blocks.  The embedding keeps exactly that: a computation
    is the trace of events it emits together with the way it ends (a value,
    a raised exception, or a [return] unwinding to the function boundary),
    and the remote server is a record giving the result of each session
    operation. *)

From Stdlib Require Import PrimFloat Ascii.
From stdpp Require Import gmap strings list pretty.

#[local] Set Warnings "-register-all,-inexact-float".

(** ** Python values

    JSON-like values as they arrive in a tool's [inputSchema] and as they are
    put into [tool_args].  A [dict] with string keys is a [gmap]: keys are
    unique and the program only looks keys up, inserts, and iterates to
    insert. *)

Inductive pyval : Type :=
| PyNone
| PyBool (b : bool)
| PyInt (z : Z)
| PyFloat (f : float)
| PyStr (s : string)
| PyList (l : list pyval)
| PyDict (d : gmap string pyval).

(** [type(v).__name__], as it appears in an [AttributeError] message. *)
Definition type_name (v : pyval) : string :=
  match v with
  | PyNone => "NoneType"
  | PyBool _ => "bool"
  | PyInt _ => "int"
  | PyFloat _ => "float"
  | PyStr _ => "str"
  | PyList _ => "list"
  | PyDict _ => "dict"
  end.

(** [d.get(key)]: the value, or [None] when the key is missing. *)
Definition dict_get (d : gmap string pyval) (key : string) : pyval :=
  default PyNone (d !! key).

(** [v == s] for a string literal [s]: only a [str] with the same characters
    compares equal. *)
Definition eq_str (v : pyval) (s : string) : bool :=
  match v with
  | PyStr s' => bool_decide (s' = s)
  | _ => false
  end.

(** Truthiness of a [str] and of an [Optional[str]]: [None] and the empty
    string are falsy. *)
Definition str_truthy (s : string) : bool :=
  match s with
  | EmptyString => false
  | String _ _ => true
  end.

Definition opt_str_truthy (o : option string) : bool :=
  match o with
  | None => false
  | Some s => str_truthy s
  end.

(** Truthiness of an [Optional[dict]]: [None] and the empty dict are falsy. *)
Definition opt_dict_truthy (o : option (gmap string pyval)) : bool :=
  match o with
  | None => false
  | Some d => negb (bool_decide (d = ∅))
  end.

(** [str(x)] of an [Optional[str]] inside an f-string. *)
Definition str_of_opt (o : option string) : string :=
  default "None" o.

Definition NL : string := String (Ascii.ascii_of_nat 10) EmptyString.

(** ** Strings: [lower] and [in]

    Characters are bytes; [lower] maps [A]..[Z] to [a]..[z] and leaves every
    other byte alone (bytes of a multi-byte UTF-8 character are all above
    127, so they never become or produce the letters of an ASCII needle). *)

Definition lower_ascii (c : ascii) : ascii :=
  let n := Ascii.nat_of_ascii c in
  if (65 <=? n)%nat && (n <=? 90)%nat then Ascii.ascii_of_nat (n + 32) else c.

Fixpoint lower (s : string) : string :=
  match s with
  | EmptyString => EmptyString
  | String c s' => String (lower_ascii c) (lower s')
  end.

Fixpoint starts_with (p s : string) : bool :=
  match p, s with
  | EmptyString, _ => true
  | String _ _, EmptyString => false
  | String a p', String b s' => bool_decide (a = b) && starts_with p' s'
  end.

(** [needle in s] on strings: substring search. *)
Fixpoint str_in (needle s : string) : bool :=
  starts_with needle s ||
  match s with
  | EmptyString => false
  | String _ s' => str_in needle s'
  end.

(** ** Exceptions

    Only the position of an exception's class in the hierarchy matters to
    the handlers of the program: [except ConnectionError] takes
    [ConnectionError] and its subclasses, [except Exception] takes every
    [Exception], and what derives from [BaseException] only
    ([KeyboardInterrupt], [asyncio.CancelledError], [SystemExit]) passes
    through both. *)

Inductive exn_class : Type :=
| ConnectionError
| AttributeError
| OtherException
| BaseExceptionOnly.

Record exn : Type := Exn { exn_cls : exn_class; exn_msg : string }.

Definition is_Exception (e : exn) : bool :=
  match exn_cls e with
  | BaseExceptionOnly => false
  | _ => true
  end.

Definition is_ConnectionError (e : exn) : bool :=
  match exn_cls e with
  | ConnectionError => true
  | _ => false
  end.

(** What [v.attr] raises when [v] has no such attribute. *)
Definition attribute_error (v : pyval) (attr : string) : exn :=
  Exn AttributeError
      ("'" +:+ type_name v +:+ "' object has no attribute '" +:+ attr +:+ "'").

Inductive result (A : Type) : Type :=
| Ok (a : A)
| Err (e : exn).
Arguments Ok {A} a.
Arguments Err {A} e.

(** ** What the server sends: prompts, resources, tools *)

Module Prompt.
Record t : Type := mk { name : string; description : option string }.
End Prompt.

Module Resource.
Record t : Type := mk { uri : string; name : string }.
End Resource.

Module Tool.
Record t : Type := mk {
  name : string;
  description : option string;
  inputSchema : option (gmap string pyval)
}.
End Tool.

(** ** The sampling callback (lines 18-30) *)

Record TextContent : Type := { type : string; text : string }.

Record CreateMessageRequestParams : Type := {
  messages : list (string * string);
  systemPrompt : option string;
  maxTokens : Z
}.

Record CreateMessageResult : Type := {
  role : string;
  content : TextContent;
  model : string;
  stopReason : string
}.

Definition handle_sampling_message (message : CreateMessageRequestParams)
  : CreateMessageResult :=
  {| role := "assistant";
     content := {| type := "text"; text := "Hello from MCP client!" |};
     model := "gpt-3.5-turbo";
     stopReason := "endTurn" |}.

(** ** Events and computations

    A session operation is a request to the server; the transports and the
    session are context managers whose entry is an event of its own (the
    stdio transport's entry is what launches the [docker] subprocess).
    Leaving a context manager releases it on every path; an exit neither
    raises nor swallows an exception. *)

Inductive request : Type :=
| Initialize
| ListPrompts
| ListResources
| ListTools
| CallTool (name : string) (arguments : gmap string pyval).

Inductive event : Type :=
| Print (line : string)
| StdioClientEnter (command : string) (args : list string)
| StreamableHttpEnter (url : string)
| ClientSessionEnter
    (sampling_callback :
       option (CreateMessageRequestParams → CreateMessageResult))
| ClientSessionExit
| TransportExit
| Await (r : request).

(** How a block of statements ends. [Returned] is a [return] statement on
    its way out to the enclosing function: it skips the rest of every block
    and is not an exception, so no handler sees it. *)
Inductive outcome (A : Type) : Type :=
| Normal (a : A)
| Raised (e : exn)
| Returned.
Arguments Normal {A} a.
Arguments Raised {A} e.
Arguments Returned {A}.

Record M (A : Type) : Type := Run { trace : list event; ending : outcome A }.
Arguments Run {A} trace ending.
Arguments trace {A} m.
Arguments ending {A} m.

#[export] Instance M_ret : MRet M := λ A a, Run [] (Normal a).

#[export] Instance M_bind : MBind M := λ A B f m,
  match ending m with
  | Normal a => Run (trace m ++ trace (f a)) (ending (f a))
  | Raised e => Run (trace m) (Raised e)
  | Returned => Run (trace m) Returned
  end.

Definition emit (ev : event) : M unit := Run [ev] (Normal tt).

Definition print (line : string) : M unit := emit (Print line).

Definition raise {A} (e : exn) : M A := Run [] (Raised e).

Definition return_ {A} : M A := Run [] Returned.

Definition lift {A} (r : result A) : M A :=
  match r with
  | Ok a => mret a
  | Err e => raise e
  end.

(** [await session.op(...)]: the request goes out, the server's answer is a
    value or an exception. *)
Definition await {A} (r : request) (answer : result A) : M A :=
  emit (Await r) ;; lift answer.

(** [try: body except C1 as e: h1 e except C2 as e: h2 e ...]: a clause is
    the test "is an instance of [C]" with its handler; the first clause that
    matches the raised exception handles it, and an exception no clause
    matches goes on propagating. A handler's own exception is not offered
    to the sibling clauses. *)
Definition except_clause (A : Type) : Type := (exn → bool) * (exn → M A).

Fixpoint matching_clause {A} (clauses : list (except_clause A)) (e : exn)
  : option (M A) :=
  match clauses with
  | [] => None
  | (catches, handler) :: rest =>
      if catches e then Some (handler e) else matching_clause rest e
  end.

Definition try_except {A} (body : M A) (clauses : list (except_clause A))
  : M A :=
  match ending body with
  | Raised e =>
      match matching_clause clauses e with
      | Some handling =>
          Run (trace body ++ trace handling) (ending handling)
      | None => body
      end
  | _ => body
  end.

(** [async with cm as x: body]: entering emits [enter] and may raise; the
    exit event follows the body however it ends. *)
Definition async_with {A} (enter : event) (entered : option exn)
    (exit : event) (body : M A) : M A :=
  emit enter ;;
  match entered with
  | Some e => raise e
  | None => Run (trace body ++ [exit]) (ending body)
  end.

(** [for x in l: body x] *)
Definition for_each {A} (l : list A) (body : A → M unit) : M unit :=
  foldr (λ x rest, body x ;; rest) (mret tt) l.

(** The boundary of an [async def]: a [return] inside the body ends the
    call normally. *)
Definition async_def (body : M unit) : M unit :=
  match ending body with
  | Returned => Run (trace body) (Normal tt)
  | _ => body
  end.

(** ** The server

    Each session operation is issued at most once by either flow, so the
    server is the answer it gives to each; [call_tool] may depend on the
    tool's name and arguments and answers with the rendering of
    [result.content]. *)

Record server : Type := {
  transport_enter : option exn;
  session_enter : option exn;
  initialize : option exn;
  list_prompts : result (list Prompt.t);
  list_resources : result (list Resource.t);
  list_tools : result (list Tool.t);
  call_tool : string → gmap string pyval → result string
}.

Definition unit_answer (o : option exn) : result unit :=
  match o with
  | None => Ok tt
  | Some e => Err e
  end.

(** ** Argument synthesis (lines 119-131) *)

(** One turn of the loop over [schema["properties"].items()]. *)
Definition synthesize_property (prop_name : string) (prop_def : pyval)
    (tool_args : gmap string pyval) : result (gmap string pyval) :=
  match prop_def with
  | PyDict d =>
      if eq_str (dict_get d "type") "string"
      then Ok (<[prop_name := PyStr "example"]> tool_args)
      else if eq_str (dict_get d "type") "integer"
      then Ok (<[prop_name := PyInt 42]> tool_args)
      else if eq_str (dict_get d "type") "number"
      then Ok (<[prop_name := PyFloat 3.14%float]> tool_args)
      else Ok tool_args
  | _ => Err (attribute_error prop_def "get")
  end.

(** The loop of lines 125-131 over the items of a dict in the order the
    dict yields them, continuing from [tool_args]. An exception ends it. *)
Fixpoint synthesize_items (items : list (string * pyval))
    (tool_args : gmap string pyval) : result (gmap string pyval) :=
  match items with
  | [] => Ok tool_args
  | (prop_name, prop_def) :: rest =>
      match synthesize_property prop_name prop_def tool_args with
      | Ok tool_args' => synthesize_items rest tool_args'
      | Err e => Err e
      end
  end.

(** The loop over a dict held as a [gmap], started from [tool_args = {}].
    A [gmap] does not keep the insertion order the program iterates in; the
    fold visits every key once, in the map's own order.  Whether the loop
    raises, the class of what it raises and the mapping it builds are the
    same for every order (shown below against [synthesize_items]); only
    when several definitions are malformed can the message name another of
    them than the program's does, and no property below rests on that
    message. *)
Definition synthesize_properties (properties : gmap string pyval)
  : result (gmap string pyval) :=
  map_fold
    (λ prop_name prop_def acc,
       match acc with
       | Ok tool_args => synthesize_property prop_name prop_def tool_args
       | Err e => Err e
       end)
    (Ok ∅) properties.

(** Lines 123-131, for a truthy [inputSchema]. *)
Definition synthesize_schema (schema : gmap string pyval)
  : result (gmap string pyval) :=
  match schema !! "properties" with
  | None => Ok ∅
  | Some (PyDict properties) => synthesize_properties properties
  | Some v => Err (attribute_error v "items")
  end.

(** [next((t for t in tools if t.name == selected_tool_name), None)] *)
Definition find_tool (tools : list Tool.t) (selected_tool_name : string)
  : option Tool.t :=
  List.find (λ t, bool_decide (Tool.name t = selected_tool_name)) tools.

(** Lines 119-131: [tools] is [None] when the listing failed. *)
Definition synthesize_tool_args (tools : option (list Tool.t))
    (selected_tool_name : string) : result (gmap string pyval) :=
  match tools with
  | Some (t0 :: ts) =>
      match find_tool (t0 :: ts) selected_tool_name with
      | Some selected =>
          if opt_dict_truthy (Tool.inputSchema selected)
          then match Tool.inputSchema selected with
               | Some schema => synthesize_schema schema
               | None => Ok ∅
               end
          else Ok ∅
      | None => Ok ∅
      end
  | _ => Ok ∅
  end.

(** Lines 111-113: the explicit name when it is truthy, else the name of the
    first listed tool when there is one, else the explicit name as it is
    ([None] or the empty string). *)
Definition select_tool_name (tool_name : option string)
    (tools : option (list Tool.t)) : option string :=
  if opt_str_truthy tool_name then tool_name
  else match tools with
       | Some (t0 :: _) => Some (Tool.name t0)
       | _ => tool_name
       end.

(** ** The stdio flow (lines 33-140) *)

(** Lines 44-51 *)
Definition docker_args (host : string) (port : Z) (docker_image : string)
  : list string :=
  ["run"; "-i"; "--rm"; docker_image; "STDIO";
   "TCP:" +:+ host +:+ ":" +:+ pretty port].

(** Lines 70-80 *)
Definition stdio_list_prompts (srv : server) : M unit :=
  print (NL +:+ "--- Listing Prompts ---") ;;
  try_except
    (prompts ← await ListPrompts (list_prompts srv);
     match prompts with
     | _ :: _ =>
         for_each prompts (λ prompt,
           print ("Prompt: " +:+ Prompt.name prompt +:+ " - "
                  +:+ str_of_opt (Prompt.description prompt)))
     | [] => print "No prompts available"
     end)
    [(is_Exception, λ e, print ("Error listing prompts: " +:+ exn_msg e))].

(** Lines 82-92 *)
Definition stdio_list_resources (srv : server) : M unit :=
  print (NL +:+ "--- Listing Resources ---") ;;
  try_except
    (resources ← await ListResources (list_resources srv);
     match resources with
     | _ :: _ =>
         for_each resources (λ resource,
           print ("Resource: " +:+ Resource.uri resource +:+ " - "
                  +:+ Resource.name resource))
     | [] => print "No resources available"
     end)
    [(is_Exception,
      λ e, print ("Error listing resources: " +:+ exn_msg e))].

(** Lines 94-105: the value is the variable [tools] after the block, [None]
    when the listing raised. *)
Definition stdio_list_tools (srv : server) : M (option (list Tool.t)) :=
  print (NL +:+ "--- Listing Tools ---") ;;
  try_except
    (tools ← await ListTools (list_tools srv);
     match tools with
     | _ :: _ =>
         for_each tools (λ tool,
           print ("Tool: " +:+ Tool.name tool +:+ " - "
                  +:+ str_of_opt (Tool.description tool)))
     | [] => print "No tools available"
     end ;;
     mret (Some tools))
    [(is_Exception,
      λ e, print ("Error listing tools: " +:+ exn_msg e) ;; mret None)].

(** Lines 110-137 *)
Definition stdio_call_selected (srv : server) (tool_name : option string)
    (tools : option (list Tool.t)) : M unit :=
  match select_tool_name tool_name tools with
  | Some selected_tool_name =>
      if str_truthy selected_tool_name then
        print (NL +:+ "--- Calling Tool: " +:+ selected_tool_name +:+ " ---") ;;
        tool_args ← lift (synthesize_tool_args tools selected_tool_name);
        try_except
          (result ← await (CallTool selected_tool_name tool_args)
                          (call_tool srv selected_tool_name tool_args);
           print ("Tool result: " +:+ result))
          [(is_Exception,
            λ e, print ("Error calling tool '" +:+ selected_tool_name
                        +:+ "': " +:+ exn_msg e))]
      else mret tt
  | None => mret tt
  end.

(** Lines 65-137: the body of the two [async with] blocks. *)
Definition stdio_session (srv : server) (tool_name : option string)
    (list_only : bool) : M unit :=
  print "Initializing connection..." ;;
  await Initialize (unit_answer (initialize srv)) ;;
  print "✓ Connection initialized" ;;
  stdio_list_prompts srv ;;
  stdio_list_resources srv ;;
  tools ← stdio_list_tools srv;
  if list_only then return_
  else stdio_call_selected srv tool_name tools.

Definition demo_stdio_client (srv : server) (host : string) (port : Z)
    (docker_image : string) (tool_name : option string) (list_only : bool)
  : M unit :=
  async_def
    (print "=== MCP Stdio Client Demo ===" ;;
     try_except
       (async_with
          (StdioClientEnter "docker" (docker_args host port docker_image))
          (transport_enter srv) TransportExit
          (async_with
             (ClientSessionEnter (Some handle_sampling_message))
             (session_enter srv) ClientSessionExit
             (stdio_session srv tool_name list_only)))
       [(is_Exception, λ e, print ("Stdio client error: " +:+ exn_msg e))]).

(** ** The HTTP flow (lines 143-209) *)

(** Lines 162-186 *)
Definition http_tools (srv : server) : M unit :=
  print (NL +:+ "--- Listing Tools (HTTP) ---") ;;
  try_except
    (tools ← await ListTools (list_tools srv);
     match tools with
     | first :: _ =>
         for_each tools (λ tool,
           print ("Tool: " +:+ Tool.name tool +:+ " - "
                  +:+ str_of_opt (Tool.description tool))) ;;
         let tool_name := Tool.name first in
         print (NL +:+ "--- Calling Tool via HTTP: " +:+ tool_name +:+ " ---") ;;
         if str_in "echo" (lower tool_name) then
           result ← await
             (CallTool tool_name {[ "message" := PyStr "Hello via HTTP!" ]})
             (call_tool srv tool_name
                {[ "message" := PyStr "Hello via HTTP!" ]});
           print ("Tool result: " +:+ result)
         else
           result ← await (CallTool tool_name ∅) (call_tool srv tool_name ∅);
           print ("Tool result: " +:+ result)
     | [] => print "No tools available"
     end)
    [(is_Exception,
      λ e, print ("Error with HTTP operations: " +:+ exn_msg e))].

(** Lines 188-198 *)
Definition http_resources (srv : server) : M unit :=
  print (NL +:+ "--- Listing Resources (HTTP) ---") ;;
  try_except
    (resources ← await ListResources (list_resources srv);
     match resources with
     | _ :: _ =>
         for_each resources (λ resource,
           print ("Resource: " +:+ Resource.uri resource +:+ " - "
                  +:+ Resource.name resource))
     | [] => print "No resources available"
     end)
    [(is_Exception,
      λ e, print ("Error listing resources via HTTP: " +:+ exn_msg e))].

(** Lines 157-198: the body of the two [async with] blocks. *)
Definition http_session (srv : server) : M unit :=
  print "Initializing HTTP connection..." ;;
  await Initialize (unit_answer (initialize srv)) ;;
  print "✓ HTTP Connection initialized" ;;
  http_tools srv ;;
  http_resources srv.

(** Lines 148-198: the [try] block. *)
Definition http_try (srv : server) (server_url : string) : M unit :=
  async_with (StreamableHttpEnter server_url) (transport_enter srv)
    TransportExit
    (async_with (ClientSessionEnter None) (session_enter srv)
       ClientSessionExit (http_session srv)).

(** Lines 200-204 *)
Definition http_on_connection_error (server_url : string) (e : exn)
  : M unit :=
  print ("HTTP connection failed: " +:+ exn_msg e) ;;
  print ("Make sure an MCP server is running at " +:+ server_url) ;;
  print "To start the server in HTTP mode, run:" ;;
  print "  python mcp/mcp_server.py --transport streamable-http --port 8000".

(** Lines 205-209 *)
Definition http_on_exception (server_url : string) (e : exn) : M unit :=
  print ("HTTP client error: " +:+ exn_msg e) ;;
  print ("This might be because no server is running at " +:+ server_url) ;;
  print "To start the server in HTTP mode, run:" ;;
  print "  python mcp/mcp_server.py --transport streamable-http --port 8000".

(** Lines 143-209: [except ConnectionError] comes before
    [except Exception]. *)
Definition demo_http_client (srv : server) (server_url : string) : M unit :=
  async_def
    (print (NL +:+ "=== MCP HTTP Client Demo ===") ;;
     print ("Attempting to connect to: " +:+ server_url) ;;
     try_except (http_try srv server_url)
       [(is_ConnectionError, http_on_connection_error server_url);
        (is_Exception, http_on_exception server_url)]).

(** ** The entry point (lines 212-234) *)

(** The parsed options; a flag that was not given is [None]. *)
Record Namespace : Type := {
  host : string;
  port : Z;
  docker_image : string;
  list_tools_flag : bool;
  tool : option string;
  http_url : option string
}.

(** Which server answers: the one behind the launched bridge, or the one at
    the URL. *)
Record world : Type := {
  stdio_peer : string → list string → server;
  http_peer : string → server
}.

(** Lines 228-234 *)
Definition main_stdio (w : world) (args : Namespace) : M unit :=
  demo_stdio_client
    (stdio_peer w "docker"
       (docker_args (host args) (port args) (docker_image args)))
    (host args) (port args) (docker_image args) (tool args)
    (list_tools_flag args).

(** Lines 224-234: [if args.http_url:] is a truthiness test, so an absent
    option and an empty URL both go to the stdio flow. *)
Definition main (w : world) (args : Namespace) : M unit :=
  async_def
    (match http_url args with
     | Some url =>
         if str_truthy url
         then demo_http_client (http_peer w url) url ;; return_
         else main_stdio w args
     | None => main_stdio w args
     end).

(** * Observing a run

    What the properties are stated with: readings of a trace, the
    conditions on a server under which a flow gets as far as a property
    speaks of, summaries of a few lines of the source, and sample servers
    and options to run the flows on. *)

(** ** Readings of a trace *)

Definition request_of (ev : event) : option request :=
  match ev with
  | Await r => Some r
  | _ => None
  end.

Definition tool_call_of (ev : event) : option (string * gmap string pyval) :=
  match ev with
  | Await (CallTool name arguments) => Some (name, arguments)
  | _ => None
  end.

Definition launch_of (ev : event) : option (string * list string) :=
  match ev with
  | StdioClientEnter command args => Some (command, args)
  | _ => None
  end.

Definition http_open_of (ev : event) : option string :=
  match ev with
  | StreamableHttpEnter url => Some url
  | _ => None
  end.

Definition session_callback_of (ev : event)
  : option (option (CreateMessageRequestParams → CreateMessageResult)) :=
  match ev with
  | ClientSessionEnter sampling_callback => Some sampling_callback
  | _ => None
  end.

(** The session operations of a trace, in order. *)
Definition requests (t : list event) : list request := omap request_of t.

(** The tool calls of a trace: name and argument mapping. *)
Definition tool_calls (t : list event) : list (string * gmap string pyval) :=
  omap tool_call_of t.

(** The subprocesses launched by the stdio transport. *)
Definition launches (t : list event) : list (string * list string) :=
  omap launch_of t.

(** The HTTP endpoints opened. *)
Definition http_opens (t : list event) : list string := omap http_open_of t.

(** The callbacks the sessions of a trace were opened with. *)
Definition session_callbacks (t : list event)
  : list (option (CreateMessageRequestParams → CreateMessageResult)) :=
  omap session_callback_of t.

(** [s] occurs in [t] as a run of consecutive events. *)
Definition segment (s t : list event) : Prop :=
  ∃ before after, t = before ++ s ++ after.

Definition is_print (ev : event) : bool :=
  match ev with
  | Print _ => true
  | _ => false
  end.

(** A block that only prints: it ends normally, with the value [b], and
    emits nothing else. *)
Definition only_prints {B} (m : M B) (b : B) : Prop :=
  ending m = Normal b ∧ Forall is_print (trace m).

(** ** Conditions on the server *)

(** The session is established: both context managers were entered and
    the handshake went through. *)
Definition established (srv : server) : bool :=
  bool_decide (transport_enter srv = None) &&
  bool_decide (session_enter srv = None) &&
  bool_decide (initialize srv = None).

(** An answer the [except Exception] clause around it takes care of. *)
Definition caught {A} (answer : result A) : bool :=
  match answer with
  | Ok _ => true
  | Err e => is_Exception e
  end.

(** Whatever the three listings raise is an [Exception]. *)
Definition listings_caught (srv : server) : bool :=
  caught (list_prompts srv) && caught (list_resources srv) &&
  caught (list_tools srv).

(** How a [try: await ... except Exception] block ends: [ok a] after an
    answer [a], [failed] after a handled exception; what is not an
    [Exception] goes on. *)
Definition guarded {A B} (answer : result A) (ok : A → B) (failed : B)
  : outcome B :=
  match answer with
  | Ok a => Normal (ok a)
  | Err e => if is_Exception e then Normal failed else Raised e
  end.

(** The variable [tools] after the listing block. *)
Definition listed (answer : result (list Tool.t)) : option (list Tool.t) :=
  match answer with
  | Ok tools => Some tools
  | Err _ => None
  end.

(** The server [srv], answering the prompt and resource listings with
    [prompts] and [resources] instead. *)
Definition with_listings (srv : server) (prompts : result (list Prompt.t))
    (resources : result (list Resource.t)) : server :=
  {| transport_enter := transport_enter srv;
     session_enter := session_enter srv;
     initialize := initialize srv;
     list_prompts := prompts;
     list_resources := resources;
     list_tools := list_tools srv;
     call_tool := call_tool srv |}.

(** ** A few lines of the source, summed up *)

Definition is_dict (v : pyval) : bool :=
  match v with
  | PyDict _ => true
  | _ => false
  end.

(** The entry the if-chain of lines 126-131 writes for a definition whose
    ["type"] is [ty], if it writes one. *)
Definition example_for (ty : pyval) : option pyval :=
  if eq_str ty "string" then Some (PyStr "example")
  else if eq_str ty "integer" then Some (PyInt 42)
  else if eq_str ty "number" then Some (PyFloat 3.14%float)
  else None.

(** Lines 107-137: what follows the listings. *)
Definition stdio_after_listings (srv : server) (tool_name : option string)
    (list_only : bool) (tools : option (list Tool.t)) : M unit :=
  if list_only then return_ else stdio_call_selected srv tool_name tools.

(** Lines 110-134 in one expression: the call the flow goes for after the
    listings, if any. No call is attempted when nothing truthy is selected,
    nor when synthesizing the arguments raises. *)
Definition planned_call (tool_name : option string)
    (tools : option (list Tool.t)) : list (string * gmap string pyval) :=
  match select_tool_name tool_name tools with
  | Some selected_tool_name =>
      if str_truthy selected_tool_name then
        match synthesize_tool_args tools selected_tool_name with
        | Ok tool_args => [(selected_tool_name, tool_args)]
        | Err _ => []
        end
      else []
  | None => []
  end.

(** Lines 176-181: the arguments the first tool is called with. *)
Definition http_arguments (tool_name : string) : gmap string pyval :=
  if str_in "echo" (lower tool_name)
  then {[ "message" := PyStr "Hello via HTTP!" ]}
  else ∅.

(** ** Sample schemas, tools, servers and options *)

Definition sample_properties : gmap string pyval :=
  {[ "city" := PyDict {[ "type" := PyStr "string" ]};
     "count" := PyDict {[ "type" := PyStr "integer" ]};
     "ratio" := PyDict {[ "type" := PyStr "number" ]};
     "flag" := PyDict {[ "type" := PyStr "boolean" ]};
     "any" := PyDict ∅ ]}.

Definition sample_schema : gmap string pyval :=
  {[ "type" := PyStr "object"; "properties" := PyDict sample_properties ]}.

Definition tool_a : Tool.t :=
  Tool.mk "a" (Some "first tool") (Some sample_schema).

Definition tool_b : Tool.t := Tool.mk "b" None None.

(** A tool whose schema has no ["properties"]. *)
Definition tool_bare : Tool.t :=
  Tool.mk "bare" None (Some {[ "type" := PyStr "object" ]}).

(** A tool whose schema gives a property the boolean schema [true] for a
    definition: [prop_def.get] raises, the outer handler reports it, and no
    call is made. *)
Definition tool_malformed : Tool.t :=
  Tool.mk "bad" None
    (Some {[ "type" := PyStr "object";
             "properties" := PyDict {[ "x" := PyBool true ]} ]}).

(** A server that accepts the connection, has no prompts and no
    resources, answers the tool listing with [tools], and answers a call
    with the tool's name in brackets. *)
Definition answering (tools : result (list Tool.t)) : server :=
  {| transport_enter := None;
     session_enter := None;
     initialize := None;
     list_prompts := Ok [];
     list_resources := Ok [];
     list_tools := tools;
     call_tool := λ name _, Ok ("[" +:+ name +:+ "]") |}.

(** Lists the tools ["a"] and ["b"] and one prompt; resources are not
    supported. *)
Definition sample_server : server :=
  with_listings (answering (Ok [tool_a; tool_b]))
    (Ok [Prompt.mk "greet" (Some "says hello")])
    (Err (Exn OtherException "Method not found")).

Definition toolless_server : server := answering (Ok []).

Definition unlisting_server : server :=
  answering (Err (Exn OtherException "Method not found")).

Definition bare_server : server := answering (Ok [tool_bare; tool_b]).

Definition malformed_server : server := answering (Ok [tool_malformed]).

Definition echo_server : server :=
  answering (Ok [Tool.mk "EchoTool" None None; tool_a]).

Definition uppercase_server : server :=
  answering (Ok [Tool.mk "uppercase" None (Some sample_schema)]).

(** Nothing listens at the endpoint. *)
Definition refusing_server : server :=
  {| transport_enter := Some (Exn ConnectionError "Connection refused");
     session_enter := None;
     initialize := None;
     list_prompts := Ok [];
     list_resources := Ok [];
     list_tools := Ok [];
     call_tool := λ name _, Ok ("[" +:+ name +:+ "]") |}.

(** The handshake fails. *)
Definition timing_out_server : server :=
  {| transport_enter := None;
     session_enter := None;
     initialize := Some (Exn OtherException "Timed out");
     list_prompts := Ok [];
     list_resources := Ok [];
     list_tools := Ok [];
     call_tool := λ name _, Ok ("[" +:+ name +:+ "]") |}.

(** One world: the sample server behind the bridge, the echo server at
    every URL. *)
Definition sample_world : world :=
  {| stdio_peer := λ _ _, sample_server; http_peer := λ _, echo_server |}.

(** [--http-url http://localhost:8000/mcp --tool a --list-tools] *)
Definition http_and_stdio_flags : Namespace :=
  {| host := "host.docker.internal"; port := 8811;
     docker_image := "alpine/socat"; list_tools_flag := true;
     tool := Some "a"; http_url := Some "http://localhost:8000/mcp" |}.

(** [--http-url "" --tool a] *)
Definition empty_http_url_flags : Namespace :=
  {| host := "host.docker.internal"; port := 8811;
     docker_image := "alpine/socat"; list_tools_flag := false;
     tool := Some "a"; http_url := Some "" |}.

(** ** More sample servers *)

(** A machine without docker. *)
Definition dockerless_server : server :=
  {| transport_enter := Some (Exn OtherException "No such file: docker");
     session_enter := None;
     initialize := None;
     list_prompts := Ok [];
     list_resources := Ok [];
     list_tools := Ok [tool_a];
     call_tool := λ name _, Ok ("[" +:+ name +:+ "]") |}.

(** Lists the tool ["b"]; calling it fails. *)
Definition failing_call_server : server :=
  {| transport_enter := None;
     session_enter := None;
     initialize := None;
     list_prompts := Ok [];
     list_resources := Ok [];
     list_tools := Ok [tool_b];
     call_tool := λ _ _, Err (Exn OtherException "Tool execution failed") |}.

(** Two tools named ["a"]: the second one's schema is malformed. *)
Definition shadowing_server : server :=
  answering (Ok [tool_b; tool_a;
                 Tool.mk "a" None
                   (Some {[ "properties" := PyStr "none" ]})]).

(** A schema with one well-formed definition and the boolean schema
    [true] for the other. *)
Definition half_malformed_properties : gmap string pyval :=
  {[ "s" := PyDict {[ "type" := PyStr "string" ]}; "x" := PyBool true ]}.

Definition half_malformed_schema : gmap string pyval :=
  {[ "type" := PyStr "object";
     "properties" := PyDict half_malformed_properties ]}.

Definition half_malformed_server : server :=
  answering (Ok [Tool.mk "search" None (Some half_malformed_schema)]).

(** The tool listing is interrupted from the keyboard. *)
Definition interrupted_server : server :=
  answering (Err (Exn BaseExceptionOnly "KeyboardInterrupt")).

(** ** Where an exception comes from *)

(** [e] is what one of the server-facing operations raises: entering the
    transport or the session, the handshake, a listing, or a tool call. *)
Definition raised_by (srv : server) (e : exn) : Prop :=
  transport_enter srv = Some e ∨ session_enter srv = Some e ∨
  initialize srv = Some e ∨ list_prompts srv = Err e ∨
  list_resources srv = Err e ∨ list_tools srv = Err e ∨
  ∃ name arguments, call_tool srv name arguments = Err e.

(** The server the entry point talks to (lines 224-234). *)
Definition main_peer (w : world) (args : Namespace) : server :=
  if opt_str_truthy (http_url args)
  then http_peer w (default "" (http_url args))
  else stdio_peer w "docker"
         (docker_args (host args) (port args) (docker_image args)).

(** ** Releases and prompt listings *)

Definition exit_of (ev : event) : option event :=
  match ev with
  | ClientSessionExit => Some ClientSessionExit
  | TransportExit => Some TransportExit
  | _ => None
  end.

(** The context managers a trace leaves, in order. *)
Definition exits (t : list event) : list event := omap exit_of t.

(** What has to be left, innermost first, given how far entering got. *)
Definition entered_scopes (srv : server) : list event :=
  match transport_enter srv, session_enter srv with
  | Some _, _ => []
  | None, Some _ => [TransportExit]
  | None, None => [ClientSessionExit; TransportExit]
  end.

Definition prompt_listing_of (ev : event) : option unit :=
  match ev with
  | Await ListPrompts => Some tt
  | _ => None
  end.

(** How a flow that talks to [srv] may end: normally, or with an exception
    that is not an [Exception] and that one of [srv]'s operations raised.
    No [Exception] is on its way out, and no [return] is pending. *)
Definition contained (srv : server) {A} (o : outcome A) : Prop :=
  match o with
  | Normal _ => True
  | Raised e => is_Exception e = false ∧ raised_by srv e
  | Returned => False
  end.

(** ** Dicts in insertion order *)

(** The sample properties as the items of a dict, in the order they were
    inserted. *)
Definition sample_items : list (string * pyval) :=
  [("city", PyDict {[ "type" := PyStr "string" ]});
   ("count", PyDict {[ "type" := PyStr "integer" ]});
   ("ratio", PyDict {[ "type" := PyStr "number" ]});
   ("flag", PyDict {[ "type" := PyStr "boolean" ]});
   ("any", PyDict ∅)].

(** [{"s": {"type": "string"}, "x": true}] and the same two items the other
    way round. *)
Definition half_malformed_items : list (string * pyval) :=
  [("s", PyDict {[ "type" := PyStr "string" ]}); ("x", PyBool true)].

Definition half_malformed_items_reversed : list (string * pyval) :=
  [("x", PyBool true); ("s", PyDict {[ "type" := PyStr "string" ]})].

(** What a property definition contributes (lines 126-131). *)
Definition entry_of (prop_def : pyval) : option pyval :=
  match prop_def with
  | PyDict d => example_for (dict_get d "type")
  | _ => None
  end.

(** * Properties *)

(** The blocks are reasoned about through their lemmas, not by unfolding. *)
Arguments stdio_list_prompts : simpl never.
Arguments stdio_list_resources : simpl never.
Arguments stdio_list_tools : simpl never.
Arguments stdio_call_selected : simpl never.
Arguments stdio_session : simpl never.
Arguments http_tools : simpl never.
Arguments http_resources : simpl never.
Arguments http_session : simpl never.
Arguments for_each : simpl never.

(** ** The argument synthesizer *)

Lemma eq_str_true v s : eq_str v s = true ↔ v = PyStr s.
Proof.
  destruct v; simpl; try (split; [discriminate | congruence]).
  rewrite bool_decide_eq_true. split; congruence.
Qed.

Lemma synthesize_property_dict prop_name d tool_args :
  synthesize_property prop_name (PyDict d) tool_args =
  Ok (match example_for (dict_get d "type") with
      | Some v => <[prop_name := v]> tool_args
      | None => tool_args
      end).
Proof.
  unfold synthesize_property, example_for.
  repeat (case (eq_str _ _); [reflexivity |]). reflexivity.
Qed.

Lemma synthesize_property_not_dict prop_name v tool_args :
  ¬ is_dict v →
  synthesize_property prop_name v tool_args = Err (attribute_error v "get").
Proof. intros Hv. destruct v; try reflexivity. by destruct Hv. Qed.

(** The loop invariant: after the keys of [m] have been visited, the
    arguments hold, for each of them, what [example_for] gives. *)
Lemma synthesize_properties_lookup (properties : gmap string pyval) :
  map_Forall (λ _ v, is_dict v) properties →
  ∃ tool_args,
    synthesize_properties properties = Ok tool_args ∧
    ∀ k, tool_args !! k =
         properties !! k ≫= λ v,
           match v with
           | PyDict d => example_for (dict_get d "type")
           | _ => None
           end.
Proof.
  unfold synthesize_properties.
  apply (map_fold_weak_ind (λ r (m : gmap string pyval),
    map_Forall (λ _ v, is_dict v) m →
    ∃ tool_args, r = Ok tool_args ∧
      ∀ k, tool_args !! k =
           m !! k ≫= λ v, match v with
                          | PyDict d => example_for (dict_get d "type")
                          | _ => None
                          end)).
  - intros _. exists ∅. split; [reflexivity |].
    intros k. by rewrite !lookup_empty.
  - intros i x m r Hi IH Hall.
    apply map_Forall_insert in Hall as [Hx Hm]; [| done].
    destruct x as [| | | | | | d]; try done.
    destruct (IH Hm) as (args & -> & Hargs).
    rewrite synthesize_property_dict. eexists. split; [reflexivity |].
    intros k. destruct (decide (i = k)) as [<- | Hne].
    + rewrite lookup_insert_eq. simpl.
      destruct (example_for (dict_get d "type")) as [v |].
      * by rewrite lookup_insert_eq.
      * by rewrite Hargs, Hi.
    + rewrite (lookup_insert_ne m) by done. rewrite <- Hargs.
      destruct (example_for (dict_get d "type")) as [v |]; [| done].
      by rewrite lookup_insert_ne.
Qed.

(** A definition that is not a mapping makes the loop raise. *)
Lemma synthesize_properties_raises (properties : gmap string pyval) :
  ¬ map_Forall (λ _ v, is_dict v) properties →
  ∃ e, synthesize_properties properties = Err e ∧ exn_cls e = AttributeError.
Proof.
  unfold synthesize_properties.
  apply (map_fold_weak_ind (λ r (m : gmap string pyval),
    (map_Forall (λ _ v, is_dict v) m → ∃ a, r = Ok a) ∧
    (¬ map_Forall (λ _ v, is_dict v) m →
     ∃ e, r = Err e ∧ exn_cls e = AttributeError))).
  - split; [by eexists |]. intros H. destruct H. apply map_Forall_empty.
  - intros i x m r Hi [IHok IHerr].
    destruct (decide (map_Forall (λ _ v, is_dict v) m)) as [Hm | Hm].
    + destruct (IHok Hm) as [a ->]. split.
      * intros Hall. apply map_Forall_insert in Hall as [Hx _]; [| done].
        destruct x; try done. rewrite synthesize_property_dict. by eexists.
      * intros Hnot. rewrite synthesize_property_not_dict; [by eexists |].
        intros Hx. apply Hnot. by apply map_Forall_insert.
    + destruct (IHerr Hm) as (e & -> & He). split; [| by eexists].
      intros Hall. apply map_Forall_insert in Hall as [_ Hall]; done.
Qed.

(** Lines 123-131 on their own: for a schema whose ["properties"] map
    every property name to a definition that is itself a mapping (with a
    ["type"] tag or without), synthesis succeeds and its output has, for
    each property, the entry ["example"], [42] or [3.14] when the tag is
    ["string"], ["integer"] or ["number"], and no entry at all when the tag
    is missing or is anything else; names that are not properties get no
    entry. *)
Lemma synthesizer_entries (schema properties : gmap string pyval) :
  schema !! "properties" = Some (PyDict properties) →
  map_Forall (λ _ prop_def, is_dict prop_def) properties →
  ∃ tool_args,
    synthesize_schema schema = Ok tool_args ∧
    ∀ prop_name,
      match properties !! prop_name with
      | Some (PyDict prop_def) =>
          (prop_def !! "type" = Some (PyStr "string") →
           tool_args !! prop_name = Some (PyStr "example")) ∧
          (prop_def !! "type" = Some (PyStr "integer") →
           tool_args !! prop_name = Some (PyInt 42)) ∧
          (prop_def !! "type" = Some (PyStr "number") →
           tool_args !! prop_name = Some (PyFloat 3.14%float)) ∧
          (prop_def !! "type" ∉ [Some (PyStr "string");
                                 Some (PyStr "integer");
                                 Some (PyStr "number")] →
           tool_args !! prop_name = None)
      | _ => tool_args !! prop_name = None
      end.
Proof.
  intros Hprops Hdefs. unfold synthesize_schema. rewrite Hprops.
  destruct (synthesize_properties_lookup properties Hdefs)
    as (tool_args & Hrun & Hlookup).
  exists tool_args. split; [exact Hrun |].
  intros prop_name. rewrite Hlookup.
  destruct (properties !! prop_name) as [[| | | | | | prop_def] |] eqn:Hp;
    simpl; try reflexivity.
  unfold example_for, dict_get.
  repeat split.
  - intros ->. reflexivity.
  - intros ->. reflexivity.
  - intros ->. reflexivity.
  - intros Hother.
    destruct (eq_str _ "string") eqn:E1.
    { apply eq_str_true in E1. destruct (prop_def !! "type"); simplify_eq/=.
      exfalso. apply Hother. set_solver. }
    destruct (eq_str _ "integer") eqn:E2.
    { apply eq_str_true in E2. destruct (prop_def !! "type"); simplify_eq/=.
      exfalso. apply Hother. set_solver. }
    destruct (eq_str _ "number") eqn:E3; [| reflexivity].
    apply eq_str_true in E3. destruct (prop_def !! "type"); simplify_eq/=.
    exfalso. apply Hother. set_solver.
Qed.

Lemma synthesizer_entries_witness :
  ∃ tool_args,
    synthesize_schema sample_schema = Ok tool_args ∧
    ∀ prop_name,
      match sample_properties !! prop_name with
      | Some (PyDict prop_def) =>
          (prop_def !! "type" = Some (PyStr "string") →
           tool_args !! prop_name = Some (PyStr "example")) ∧
          (prop_def !! "type" = Some (PyStr "integer") →
           tool_args !! prop_name = Some (PyInt 42)) ∧
          (prop_def !! "type" = Some (PyStr "number") →
           tool_args !! prop_name = Some (PyFloat 3.14%float)) ∧
          (prop_def !! "type" ∉ [Some (PyStr "string");
                                 Some (PyStr "integer");
                                 Some (PyStr "number")] →
           tool_args !! prop_name = None)
      | _ => tool_args !! prop_name = None
      end.
Proof.
  apply (synthesizer_entries sample_schema sample_properties).
  - reflexivity.
  - compute_done.
Defined.

(** The sample schema, run: three entries, nothing for ["flag"] and
    ["any"]. *)
Example synthesize_sample :
  synthesize_schema sample_schema =
  Ok {[ "city" := PyStr "example"; "count" := PyInt 42;
        "ratio" := PyFloat 3.14%float ]}.
Proof. vm_compute. reflexivity. Qed.

(** ** Reading a trace *)

Lemma tool_calls_requests t :
  tool_calls t =
  omap (λ r, match r with
             | CallTool name arguments => Some (name, arguments)
             | _ => None
             end) (requests t).
Proof.
  induction t as [| ev t IH]; [reflexivity |].
  destruct ev as [| | | | | | []]; simpl; by rewrite ?IH.
Qed.

(** ** Running blocks *)

Lemma bind_normal {A B} (m : M A) (f : A → M B) a :
  ending m = Normal a →
  m ≫= f = Run (trace m ++ trace (f a)) (ending (f a)).
Proof. intros H. unfold mbind, M_bind. by rewrite H. Qed.

Lemma print_only_prints line : only_prints (print line) tt.
Proof. split; [reflexivity |]. by repeat constructor. Qed.

Lemma ret_only_prints {B} (b : B) : only_prints (mret b) b.
Proof. split; [reflexivity | constructor]. Qed.

Lemma bind_only_prints {A B} (m : M A) (f : A → M B) a b :
  only_prints m a → only_prints (f a) b → only_prints (m ≫= f) b.
Proof.
  intros [E1 P1] [E2 P2]. rewrite (bind_normal _ _ _ E1).
  split; [exact E2 |]. simpl. by apply Forall_app.
Qed.

Lemma for_each_only_prints {A} (l : list A) (body : A → M unit) :
  (∀ x, only_prints (body x) tt) → only_prints (for_each l body) tt.
Proof.
  intros Hbody. induction l as [| x l IH]; simpl.
  - apply ret_only_prints.
  - by eapply bind_only_prints.
Qed.

(** ** Projections of a trace, block by block

    Every reading of a trace above is an [omap]; it distributes over the
    control structures, so what a flow requests can be computed from what
    its blocks request and the way they end. *)

Section projection.
Context {X : Type} (g : event → option X).

Lemma proj_bind {A B} (m : M A) (f : A → M B) :
  omap g (trace (m ≫= f)) =
  omap g (trace m) ++
  match ending m with
  | Normal a => omap g (trace (f a))
  | _ => []
  end.
Proof.
  unfold mbind, M_bind.
  destruct (ending m); simpl; by rewrite ?omap_app, ?app_nil_r.
Qed.

Lemma proj_try {A} (body : M A) (clauses : list (except_clause A)) :
  omap g (trace (try_except body clauses)) =
  omap g (trace body) ++
  match ending body with
  | Raised e =>
      match matching_clause clauses e with
      | Some handling => omap g (trace handling)
      | None => []
      end
  | _ => []
  end.
Proof.
  unfold try_except.
  destruct (ending body) as [a | e |]; rewrite ?app_nil_r; try done.
  destruct (matching_clause clauses e); simpl;
    by rewrite ?omap_app, ?app_nil_r.
Qed.

Lemma proj_emit (ev : event) : omap g (trace (emit ev)) = option_list (g ev).
Proof. simpl. by destruct (g ev). Qed.

Lemma proj_print (line : string) :
  omap g (trace (print line)) = option_list (g (Print line)).
Proof. apply proj_emit. Qed.

Lemma proj_lift {A} (r : result A) : omap g (trace (lift r)) = [].
Proof. by destruct r. Qed.

Lemma proj_await {A} (r : request) (answer : result A) :
  omap g (trace (await r answer)) = option_list (g (Await r)).
Proof.
  unfold await. rewrite proj_bind, proj_emit, proj_lift. simpl.
  by rewrite app_nil_r.
Qed.

Lemma proj_async_with {A} enter entered exit (body : M A) :
  omap g (trace (async_with enter entered exit body)) =
  option_list (g enter) ++
  match entered with
  | Some _ => []
  | None => omap g (trace body) ++ option_list (g exit)
  end.
Proof.
  unfold async_with. rewrite proj_bind, proj_emit. simpl.
  destruct entered; simpl; [done |].
  rewrite omap_app. simpl. by destruct (g exit).
Qed.

Lemma proj_async_def (body : M unit) :
  omap g (trace (async_def body)) = omap g (trace body).
Proof. unfold async_def. by destruct (ending body). Qed.

Lemma proj_only_prints {B} (m : M B) (b : B) :
  (∀ line, g (Print line) = None) → only_prints m b → omap g (trace m) = [].
Proof.
  intros Hg [_ Hm]. induction Hm as [| ev t Hev _ IH]; [done |].
  destruct ev; try done. simpl. by rewrite Hg.
Qed.

End projection.

Lemma ending_bind {A B} (m : M A) (f : A → M B) :
  ending (m ≫= f) =
  match ending m with
  | Normal a => ending (f a)
  | Raised e => Raised e
  | Returned => Returned
  end.
Proof. unfold mbind, M_bind. by destruct (ending m). Qed.

Lemma ending_try {A} (body : M A) (clauses : list (except_clause A)) :
  ending (try_except body clauses) =
  match ending body with
  | Raised e =>
      match matching_clause clauses e with
      | Some handling => ending handling
      | None => Raised e
      end
  | o => o
  end.
Proof.
  unfold try_except. destruct (ending body) as [a | e |] eqn:E; try done.
  by destruct (matching_clause clauses e).
Qed.

Lemma ending_await {A} (r : request) (answer : result A) :
  ending (await r answer) =
  match answer with
  | Ok a => Normal a
  | Err e => Raised e
  end.
Proof. by destruct answer. Qed.

Lemma ending_async_with {A} enter entered exit (body : M A) :
  ending (async_with enter entered exit body) =
  match entered with
  | Some e => Raised e
  | None => ending body
  end.
Proof. by destruct entered. Qed.

Lemma ending_async_def (body : M unit) :
  ending (async_def body) =
  match ending body with
  | Returned => Normal tt
  | o => o
  end.
Proof. unfold async_def. by destruct (ending body) eqn:E. Qed.

Lemma ending_print line : ending (print line) = Normal tt.
Proof. reflexivity. Qed.

(** [async def] bodies never leave a [return] pending. *)
Lemma async_def_not_returned (body : M unit) :
  ending (async_def body) ≠ Returned.
Proof. rewrite ending_async_def. by destruct (ending body). Qed.

(** ** Guarded requests

    The shape of every listing block: one request inside a
    [try ... except Exception], with nothing but prints after the answer
    and in the handler. *)

Section guarded_request.
Context {A B : Type} (r : request) (answer : result A).
Context (k : A → M B) (h : exn → M B) (ok : A → B) (failed : B).
Hypothesis k_prints : ∀ a, only_prints (k a) (ok a).
Hypothesis h_prints : ∀ e, only_prints (h e) failed.

Lemma guarded_request_ending :
  ending (try_except (await r answer ≫= k) [(is_Exception, h)]) =
  guarded answer ok failed.
Proof.
  rewrite ending_try, ending_bind, ending_await.
  destruct answer as [a | e]; simpl.
  - by rewrite (proj1 (k_prints a)).
  - destruct (is_Exception e); [apply h_prints | done].
Qed.

Lemma guarded_request_proj {X} (g : event → option X) :
  (∀ line, g (Print line) = None) →
  omap g (trace (try_except (await r answer ≫= k) [(is_Exception, h)])) =
  option_list (g (Await r)).
Proof.
  intros g_print.
  rewrite proj_try, proj_bind, proj_await, ending_bind, ending_await.
  destruct answer as [a | e]; simpl.
  - rewrite (proj_only_prints g _ _ g_print (k_prints a)).
    rewrite (proj1 (k_prints a)). by rewrite !app_nil_r.
  - destruct (is_Exception e); rewrite ?app_nil_r; [| done].
    by rewrite (proj_only_prints g _ _ g_print (h_prints e)), app_nil_r.
Qed.

(** A handled failure leaves the request followed by the handler's
    report. *)
Lemma guarded_request_failed e :
  answer = Err e → is_Exception e →
  trace (try_except (await r answer ≫= k) [(is_Exception, h)]) =
  Await r :: trace (h e).
Proof.
  intros -> He. unfold try_except. simpl.
  by destruct (is_Exception e).
Qed.

End guarded_request.

Lemma report_only_prints {A} (l : list A) (line : A → string) none :
  only_prints
    match l with
    | _ :: _ => for_each l (λ x, print (line x))
    | [] => print none
    end tt.
Proof.
  destruct l; [apply print_only_prints |].
  apply for_each_only_prints. intros x. apply print_only_prints.
Qed.

(** ** The stdio flow, block by block *)

Lemma guarded_caught {A B} (answer : result A) (ok : A → B) failed :
  caught answer →
  guarded answer ok failed =
  Normal match answer with Ok a => ok a | Err _ => failed end.
Proof. destruct answer as [a | e]; simpl; [done |]. by destruct (is_Exception e). Qed.

Lemma tools_report_only_prints (tools : list Tool.t) :
  only_prints
    (match tools with
     | _ :: _ =>
         for_each tools (λ tool,
           print ("Tool: " +:+ Tool.name tool +:+ " - "
                  +:+ str_of_opt (Tool.description tool)))
     | [] => print "No tools available"
     end ;; mret (Some tools)) (Some tools).
Proof.
  eapply bind_only_prints; [apply report_only_prints | apply ret_only_prints].
Qed.

Lemma tools_failed_only_prints line :
  only_prints (print line ;; mret (@None (list Tool.t))) None.
Proof.
  eapply bind_only_prints; [apply print_only_prints | apply ret_only_prints].
Qed.

Lemma stdio_list_prompts_ending srv :
  ending (stdio_list_prompts srv) = guarded (list_prompts srv) (λ _, tt) tt.
Proof.
  unfold stdio_list_prompts. rewrite ending_bind, ending_print.
  apply guarded_request_ending; intros.
  - apply report_only_prints.
  - apply print_only_prints.
Qed.

Lemma stdio_list_resources_ending srv :
  ending (stdio_list_resources srv) =
  guarded (list_resources srv) (λ _, tt) tt.
Proof.
  unfold stdio_list_resources. rewrite ending_bind, ending_print.
  apply guarded_request_ending; intros.
  - apply report_only_prints.
  - apply print_only_prints.
Qed.

Lemma stdio_list_tools_ending srv :
  ending (stdio_list_tools srv) = guarded (list_tools srv) Some None.
Proof.
  unfold stdio_list_tools. rewrite ending_bind, ending_print.
  apply guarded_request_ending; intros.
  - apply tools_report_only_prints.
  - apply tools_failed_only_prints.
Qed.

Lemma stdio_call_selected_ending srv tool_name tools :
  ending (stdio_call_selected srv tool_name tools) =
  match select_tool_name tool_name tools with
  | Some selected_tool_name =>
      if str_truthy selected_tool_name then
        match synthesize_tool_args tools selected_tool_name with
        | Ok tool_args =>
            guarded (call_tool srv selected_tool_name tool_args) (λ _, tt) tt
        | Err e => Raised e
        end
      else Normal tt
  | None => Normal tt
  end.
Proof.
  unfold stdio_call_selected.
  destruct (select_tool_name tool_name tools) as [name |]; [| done].
  destruct (str_truthy name); [| done].
  rewrite ending_bind, ending_print, ending_bind.
  destruct (synthesize_tool_args tools name) as [tool_args | e]; [| done].
  simpl. apply guarded_request_ending; intros; apply print_only_prints.
Qed.

Section silent.
Context {X : Type} (g : event → option X).
Hypothesis g_print : ∀ line, g (Print line) = None.

Lemma stdio_list_prompts_proj srv :
  omap g (trace (stdio_list_prompts srv)) =
  option_list (g (Await ListPrompts)).
Proof.
  unfold stdio_list_prompts. rewrite proj_bind, proj_print, g_print.
  apply (guarded_request_proj _ _ _ _ (λ _, tt) tt); intros; try done.
  - apply report_only_prints.
  - apply print_only_prints.
Qed.

Lemma stdio_list_resources_proj srv :
  omap g (trace (stdio_list_resources srv)) =
  option_list (g (Await ListResources)).
Proof.
  unfold stdio_list_resources. rewrite proj_bind, proj_print, g_print.
  apply (guarded_request_proj _ _ _ _ (λ _, tt) tt); intros; try done.
  - apply report_only_prints.
  - apply print_only_prints.
Qed.

Lemma stdio_list_tools_proj srv :
  omap g (trace (stdio_list_tools srv)) = option_list (g (Await ListTools)).
Proof.
  unfold stdio_list_tools. rewrite proj_bind, proj_print, g_print.
  apply (guarded_request_proj _ _ _ _ Some None); intros; try done.
  - apply tools_report_only_prints.
  - apply tools_failed_only_prints.
Qed.

Lemma stdio_call_selected_proj srv tool_name tools :
  omap g (trace (stdio_call_selected srv tool_name tools)) =
  match select_tool_name tool_name tools with
  | Some selected_tool_name =>
      if str_truthy selected_tool_name then
        match synthesize_tool_args tools selected_tool_name with
        | Ok tool_args =>
            option_list (g (Await (CallTool selected_tool_name tool_args)))
        | Err _ => []
        end
      else []
  | None => []
  end.
Proof.
  unfold stdio_call_selected.
  destruct (select_tool_name tool_name tools) as [name |]; [| done].
  destruct (str_truthy name); [| done].
  rewrite proj_bind, proj_print, g_print, ending_print, proj_bind, proj_lift.
  destruct (synthesize_tool_args tools name) as [tool_args | e]; [| done].
  simpl.
  apply (guarded_request_proj _ _ _ _ (λ _, tt) tt); intros; try done;
    apply print_only_prints.
Qed.

End silent.

(** ** The stdio session and the whole stdio flow *)

Lemma established_fields srv :
  established srv →
  transport_enter srv = None ∧ session_enter srv = None ∧
  initialize srv = None.
Proof.
  unfold established. rewrite !andb_True, !bool_decide_spec. tauto.
Qed.

Lemma listings_caught_fields srv :
  listings_caught srv →
  caught (list_prompts srv) ∧ caught (list_resources srv) ∧
  caught (list_tools srv).
Proof. unfold listings_caught. rewrite !andb_True. tauto. Qed.

Lemma stdio_session_ending srv tool_name list_only :
  initialize srv = None → listings_caught srv →
  ending (stdio_session srv tool_name list_only) =
  ending (stdio_after_listings srv tool_name list_only
            (listed (list_tools srv))).
Proof.
  intros Hinit (Hp & Hr & Ht)%listings_caught_fields.
  unfold stdio_session.
  rewrite ending_bind, ending_print, ending_bind, ending_await, Hinit.
  cbn [unit_answer].
  rewrite ending_bind, ending_print, ending_bind, stdio_list_prompts_ending,
    guarded_caught by done.
  rewrite ending_bind, stdio_list_resources_ending, guarded_caught by done.
  rewrite ending_bind, stdio_list_tools_ending, guarded_caught by done.
  unfold stdio_after_listings, listed. by destruct (list_tools srv).
Qed.

Lemma silent_app {X} (l : list X) : option_list None ++ l = l.
Proof. reflexivity. Qed.

Section silent_flow.
Context {X : Type} (g : event → option X).
Hypothesis g_print : ∀ line, g (Print line) = None.

Lemma stdio_session_proj srv tool_name list_only :
  initialize srv = None → listings_caught srv →
  omap g (trace (stdio_session srv tool_name list_only)) =
  option_list (g (Await Initialize)) ++
  option_list (g (Await ListPrompts)) ++
  option_list (g (Await ListResources)) ++
  option_list (g (Await ListTools)) ++
  omap g (trace (stdio_after_listings srv tool_name list_only
                   (listed (list_tools srv)))).
Proof.
  intros Hinit (Hp & Hr & Ht)%listings_caught_fields.
  unfold stdio_session.
  rewrite proj_bind, proj_print, g_print, ending_print.
  rewrite proj_bind, proj_await, ending_await, Hinit. cbn [unit_answer].
  rewrite proj_bind, proj_print, g_print, ending_print. cbn [option_list app].
  rewrite proj_bind, (stdio_list_prompts_proj g g_print),
    stdio_list_prompts_ending, guarded_caught by done.
  rewrite proj_bind, (stdio_list_resources_proj g g_print),
    stdio_list_resources_ending, guarded_caught by done.
  rewrite proj_bind, (stdio_list_tools_proj g g_print),
    stdio_list_tools_ending, guarded_caught by done.
  unfold stdio_after_listings, listed. by destruct (list_tools srv).
Qed.

(** Without any assumption on the server, a list-only session shows [g]
    nothing but requests among the handshake and the three listings. *)
Lemma stdio_session_list_only_proj srv tool_name :
  omap g (trace (stdio_session srv tool_name true)) `prefix_of`
  option_list (g (Await Initialize)) ++
  option_list (g (Await ListPrompts)) ++
  option_list (g (Await ListResources)) ++
  option_list (g (Await ListTools)).
Proof.
  unfold stdio_session.
  rewrite proj_bind, proj_print, g_print, ending_print, silent_app.
  rewrite proj_bind, proj_await, ending_await.
  apply prefix_app.
  destruct (initialize srv); cbn [unit_answer]; [apply prefix_nil |].
  rewrite proj_bind, proj_print, g_print, ending_print, silent_app.
  rewrite proj_bind, (stdio_list_prompts_proj g g_print).
  apply prefix_app. destruct (ending _); try apply prefix_nil.
  rewrite proj_bind, (stdio_list_resources_proj g g_print).
  apply prefix_app. destruct (ending _); try apply prefix_nil.
  rewrite proj_bind, (stdio_list_tools_proj g g_print).
  rewrite <- (app_nil_r (option_list (g (Await ListTools)))) at 2.
  apply prefix_app. destruct (ending _); apply prefix_nil.
Qed.

Hypothesis g_stdio_enter : ∀ command args, g (StdioClientEnter command args) = None.
Hypothesis g_session_enter : ∀ cb, g (ClientSessionEnter cb) = None.
Hypothesis g_session_exit : g ClientSessionExit = None.
Hypothesis g_transport_exit : g TransportExit = None.

(** Seen through [g], the stdio flow is its session, when there is one. *)
Lemma demo_stdio_client_proj srv host port docker_image tool_name list_only :
  omap g (trace (demo_stdio_client srv host port docker_image tool_name
                   list_only)) =
  match transport_enter srv, session_enter srv with
  | None, None => omap g (trace (stdio_session srv tool_name list_only))
  | _, _ => []
  end.
Proof.
  unfold demo_stdio_client.
  rewrite proj_async_def, proj_bind, proj_print, g_print, ending_print.
  rewrite proj_try, !proj_async_with, !ending_async_with.
  rewrite g_stdio_enter, g_session_enter, g_session_exit, g_transport_exit.
  rewrite !silent_app.
  destruct (transport_enter srv) as [e |]; cbn.
  { destruct (is_Exception e); cbn; by rewrite ?g_print. }
  destruct (session_enter srv) as [e |]; cbn.
  { destruct (is_Exception e); cbn; by rewrite ?g_print. }
  rewrite !app_nil_r.
  destruct (ending _) as [[] | e |]; rewrite ?app_nil_r; try done.
  destruct (is_Exception e); cbn; by rewrite ?g_print, ?app_nil_r.
Qed.

End silent_flow.

(** ** What the stdio flow requests *)

Lemma stdio_after_listings_tool_calls srv tool_name list_only tools :
  tool_calls (trace (stdio_after_listings srv tool_name list_only tools)) =
  if list_only then [] else planned_call tool_name tools.
Proof.
  unfold stdio_after_listings, tool_calls, planned_call.
  destruct list_only; [done |].
  rewrite (stdio_call_selected_proj tool_call_of) by done.
  destruct (select_tool_name tool_name tools) as [name |]; [| done].
  destruct (str_truthy name); [| done].
  by destruct (synthesize_tool_args tools name).
Qed.

Lemma stdio_after_listings_requests srv tool_name list_only tools :
  requests (trace (stdio_after_listings srv tool_name list_only tools)) =
  (λ call, CallTool call.1 call.2) <$>
  (if list_only then [] else planned_call tool_name tools).
Proof.
  unfold stdio_after_listings, requests, planned_call.
  destruct list_only; [done |].
  rewrite (stdio_call_selected_proj request_of) by done.
  destruct (select_tool_name tool_name tools) as [name |]; [| done].
  destruct (str_truthy name); [| done].
  by destruct (synthesize_tool_args tools name).
Qed.

(** With the session established and the listings' failures handled, the
    flow issues the handshake, the three listings, and the planned call. *)
Lemma demo_stdio_client_requests srv host port docker_image tool_name
    list_only :
  established srv → listings_caught srv →
  requests (trace (demo_stdio_client srv host port docker_image tool_name
                     list_only)) =
  [Initialize; ListPrompts; ListResources; ListTools] ++
  ((λ call, CallTool call.1 call.2) <$>
   (if list_only then []
    else planned_call tool_name (listed (list_tools srv)))).
Proof.
  intros (Ht & Hs & Hi)%established_fields Hcaught.
  unfold requests at 1.
  rewrite (demo_stdio_client_proj request_of) by done. rewrite Ht, Hs.
  rewrite (stdio_session_proj request_of) by done.
  fold (requests (trace (stdio_after_listings srv tool_name list_only
                           (listed (list_tools srv))))).
  by rewrite stdio_after_listings_requests.
Qed.

Lemma demo_stdio_client_tool_calls srv host port docker_image tool_name
    list_only :
  established srv → listings_caught srv →
  tool_calls (trace (demo_stdio_client srv host port docker_image tool_name
                       list_only)) =
  if list_only then []
  else planned_call tool_name (listed (list_tools srv)).
Proof.
  intros (Ht & Hs & Hi)%established_fields Hcaught.
  unfold tool_calls at 1.
  rewrite (demo_stdio_client_proj tool_call_of) by done. rewrite Ht, Hs.
  rewrite (stdio_session_proj tool_call_of) by done.
  apply stdio_after_listings_tool_calls.
Qed.

(** A list-only flow, on any server at all: whatever fails, the requests
    stay within the handshake and the three listings. *)
Lemma demo_stdio_client_list_only_requests srv host port docker_image
    tool_name :
  requests (trace (demo_stdio_client srv host port docker_image tool_name
                     true))
  `prefix_of` [Initialize; ListPrompts; ListResources; ListTools].
Proof.
  unfold requests.
  rewrite (demo_stdio_client_proj request_of) by done.
  destruct (transport_enter srv); [apply prefix_nil |].
  destruct (session_enter srv); [apply prefix_nil |].
  by apply (stdio_session_list_only_proj request_of).
Qed.

Lemma demo_stdio_client_ending srv host port docker_image tool_name
    list_only :
  established srv → listings_caught srv →
  ending (demo_stdio_client srv host port docker_image tool_name list_only) =
  match ending (stdio_after_listings srv tool_name list_only
                  (listed (list_tools srv))) with
  | Raised e => if is_Exception e then Normal tt else Raised e
  | _ => Normal tt
  end.
Proof.
  intros (Ht & Hs & Hi)%established_fields Hcaught.
  unfold demo_stdio_client.
  rewrite ending_async_def, ending_bind, ending_print, ending_try,
    !ending_async_with, Ht, Hs, stdio_session_ending by done.
  destruct (ending _) as [[] | e |]; try done.
  cbn. by destruct (is_Exception e).
Qed.

(** ** Selection and synthesis, case by case *)

Lemma str_truthy_ne s : s ≠ "" → str_truthy s = true.
Proof. by destruct s. Qed.

Lemma select_named name tools :
  name ≠ "" → select_tool_name (Some name) tools = Some name.
Proof. intros H. unfold select_tool_name. simpl. by rewrite str_truthy_ne. Qed.

Lemma select_first tool_name first rest :
  opt_str_truthy tool_name = false →
  select_tool_name tool_name (Some (first :: rest)) = Some (Tool.name first).
Proof. intros H. unfold select_tool_name. by rewrite H. Qed.

Lemma select_nothing tool_name tools :
  opt_str_truthy tool_name = false → tools = None ∨ tools = Some [] →
  planned_call tool_name tools = [].
Proof.
  intros H Htools. unfold planned_call, select_tool_name. rewrite H.
  destruct Htools as [-> | ->]; destruct tool_name as [s |]; try done;
    simpl in H; by rewrite H.
Qed.

Lemma find_tool_absent tools name :
  (∀ t, t ∈ tools → Tool.name t ≠ name) → find_tool tools name = None.
Proof.
  intros Habsent. unfold find_tool.
  induction tools as [| t tools IH]; [done |]. simpl.
  rewrite bool_decide_eq_false_2 by (apply Habsent; left).
  apply IH. intros t' Ht'. apply Habsent. by right.
Qed.

(** Lines 119-122 leave [tool_args] empty when there is no listing, the
    listing is empty, or no listed tool has the selected name. *)
Lemma synthesize_unlisted tools name :
  tools = None ∨ tools = Some [] ∨
  (∃ l, tools = Some l ∧ ∀ t, t ∈ l → Tool.name t ≠ name) →
  synthesize_tool_args tools name = Ok ∅.
Proof.
  intros [-> | [-> | (l & -> & Habsent)]]; try done.
  unfold synthesize_tool_args. destruct l as [| t0 ts]; [done |].
  by rewrite find_tool_absent.
Qed.

(** Lines 122-124 leave it empty as well when the tool found has no input
    schema, or a schema without ["properties"]. *)
Lemma synthesize_schemaless tools name selected :
  find_tool tools name = Some selected →
  Tool.inputSchema selected = None ∨
  (∃ schema, Tool.inputSchema selected = Some schema ∧
             schema !! "properties" = None) →
  synthesize_tool_args (Some tools) name = Ok ∅.
Proof.
  intros Hfind Hschema. unfold synthesize_tool_args.
  destruct tools as [| t0 ts]; [done |]. rewrite Hfind.
  destruct Hschema as [-> | (schema & -> & Hprops)]; [done |].
  destruct (opt_dict_truthy _); [| done].
  unfold synthesize_schema. by rewrite Hprops.
Qed.

(** With a non-empty schema on the tool found, the arguments are the
    ones synthesized from that schema. *)
Lemma synthesize_listed tools name selected schema :
  find_tool tools name = Some selected →
  Tool.inputSchema selected = Some schema → schema ≠ ∅ →
  synthesize_tool_args (Some tools) name = synthesize_schema schema.
Proof.
  intros Hfind Hschema Hne. unfold synthesize_tool_args.
  destruct tools as [| t0 ts]; [done |]. rewrite Hfind, Hschema. simpl.
  by rewrite bool_decide_eq_false_2.
Qed.

(** ** The claims about the stdio flow *)

(** C1, as amended: when every property of the selected tool's schema is
    defined by a mapping (with a ["type"] tag or without), the stdio flow
    calls the tool with the synthesized arguments, and these hold exactly
    one entry per property whose tag is ["string"], ["integer"] or
    ["number"], with the values ["example"], [42] and [3.14], and no entry
    for a property whose tag is missing or anything else, nor for any other
    name. *)
Theorem stdio_call_carries_synthesized_entries srv host port docker_image
    tool_name tools name selected schema properties :
  established srv → listings_caught srv →
  list_tools srv = Ok tools →
  select_tool_name tool_name (Some tools) = Some name → name ≠ "" →
  find_tool tools name = Some selected →
  Tool.inputSchema selected = Some schema →
  schema !! "properties" = Some (PyDict properties) →
  map_Forall (λ _ prop_def, is_dict prop_def) properties →
  ∃ tool_args,
    tool_calls (trace (demo_stdio_client srv host port docker_image
                         tool_name false)) = [(name, tool_args)] ∧
    ∀ prop_name,
      match properties !! prop_name with
      | Some (PyDict prop_def) =>
          (prop_def !! "type" = Some (PyStr "string") →
           tool_args !! prop_name = Some (PyStr "example")) ∧
          (prop_def !! "type" = Some (PyStr "integer") →
           tool_args !! prop_name = Some (PyInt 42)) ∧
          (prop_def !! "type" = Some (PyStr "number") →
           tool_args !! prop_name = Some (PyFloat 3.14%float)) ∧
          (prop_def !! "type" ∉ [Some (PyStr "string");
                                 Some (PyStr "integer");
                                 Some (PyStr "number")] →
           tool_args !! prop_name = None)
      | _ => tool_args !! prop_name = None
      end.
Proof.
  intros Hup Hcaught Htools Hselect Hname Hfind Hschema Hprops Hdefs.
  destruct (synthesizer_entries schema properties Hprops Hdefs)
    as (tool_args & Hargs & Hentries).
  exists tool_args. split; [| exact Hentries].
  rewrite demo_stdio_client_tool_calls by done.
  unfold planned_call. rewrite Htools. simpl listed.
  rewrite Hselect, str_truthy_ne by done.
  rewrite (synthesize_listed tools name selected schema), Hargs; try done.
  intros ->. by rewrite lookup_empty in Hprops.
Qed.

Lemma stdio_call_carries_synthesized_entries_witness :
  ∃ tool_args,
    tool_calls (trace (demo_stdio_client sample_server "host" 8811 "img"
                         None false)) = [("a", tool_args)] ∧
    ∀ prop_name,
      match sample_properties !! prop_name with
      | Some (PyDict prop_def) =>
          (prop_def !! "type" = Some (PyStr "string") →
           tool_args !! prop_name = Some (PyStr "example")) ∧
          (prop_def !! "type" = Some (PyStr "integer") →
           tool_args !! prop_name = Some (PyInt 42)) ∧
          (prop_def !! "type" = Some (PyStr "number") →
           tool_args !! prop_name = Some (PyFloat 3.14%float)) ∧
          (prop_def !! "type" ∉ [Some (PyStr "string");
                                 Some (PyStr "integer");
                                 Some (PyStr "number")] →
           tool_args !! prop_name = None)
      | _ => tool_args !! prop_name = None
      end.
Proof.
  assert ("a" ≠ "") as Hne by discriminate.
  apply (stdio_call_carries_synthesized_entries sample_server "host" 8811
           "img" None [tool_a; tool_b] "a" tool_a sample_schema
           sample_properties I I eq_refl eq_refl Hne eq_refl eq_refl
           eq_refl).
  compute_done.
Defined.

(** C1 as stated fails for a schema one of whose properties is not defined
    by a mapping: with ["s"] of type ["string"] and ["x"] defined by the
    boolean schema [true], [prop_def.get] raises at ["x"] (after ["s"] in
    the order of the dict, and just as well before it), so no argument
    mapping comes out, not even the entry for ["s"], and the flow makes no
    call. *)
Lemma non_mapping_definition_stops_synthesis :
  half_malformed_properties !! "s" =
    Some (PyDict {[ "type" := PyStr "string" ]}) ∧
  half_malformed_properties !! "x" = Some (PyBool true) ∧
  list_to_map half_malformed_items = half_malformed_properties ∧
  synthesize_items half_malformed_items ∅ =
    Err (Exn AttributeError "'bool' object has no attribute 'get'") ∧
  synthesize_items half_malformed_items_reversed ∅ =
    Err (Exn AttributeError "'bool' object has no attribute 'get'") ∧
  synthesize_schema half_malformed_schema =
    Err (Exn AttributeError "'bool' object has no attribute 'get'") ∧
  tool_calls (trace (demo_stdio_client half_malformed_server "host" 8811
                       "img" None false)) = [].
Proof. repeat split; vm_compute; reflexivity. Qed.

(** C2, as amended: once the session is established (and not in list-only
    mode), the tool the stdio flow goes for is the explicitly named one
    whenever a non-empty name is given, whether or not the listing has it;
    with no name (or an empty one) it is the first listed tool; and with no
    name and nothing listed, no call is made.  The call carries the
    synthesized arguments and is not made if synthesizing them raises. *)
Theorem stdio_tool_selection srv host port docker_image tool_name :
  established srv → listings_caught srv →
  let tools := listed (list_tools srv) in
  let calls :=
    tool_calls (trace (demo_stdio_client srv host port docker_image
                         tool_name false)) in
  (∀ name, tool_name = Some name → name ≠ "" →
     calls = match synthesize_tool_args tools name with
             | Ok tool_args => [(name, tool_args)]
             | Err _ => []
             end) ∧
  (∀ first rest,
     opt_str_truthy tool_name = false → tools = Some (first :: rest) →
     Tool.name first ≠ "" →
     calls = match synthesize_tool_args tools (Tool.name first) with
             | Ok tool_args => [(Tool.name first, tool_args)]
             | Err _ => []
             end) ∧
  (opt_str_truthy tool_name = false → tools = None ∨ tools = Some [] →
   calls = []).
Proof.
  intros Hup Hcaught tools calls. subst calls.
  rewrite demo_stdio_client_tool_calls by done. fold tools.
  split; [| split].
  - intros name -> Hname. unfold planned_call.
    by rewrite select_named, str_truthy_ne.
  - intros first rest Hfalsy Htools Hfirst. unfold planned_call.
    rewrite Htools, select_first, str_truthy_ne by done. by rewrite <- Htools.
  - intros Hfalsy Htools. by apply select_nothing.
Qed.

Lemma stdio_tool_selection_witness :
  tool_calls (trace (demo_stdio_client sample_server "host" 8811 "img"
                       (Some "b") false)) = [("b", ∅)] ∧
  tool_calls (trace (demo_stdio_client sample_server "host" 8811 "img"
                       None false)) =
    [("a", {[ "city" := PyStr "example"; "count" := PyInt 42;
              "ratio" := PyFloat 3.14%float ]})] ∧
  tool_calls (trace (demo_stdio_client toolless_server "host" 8811 "img"
                       None false)) = [].
Proof.
  destruct (stdio_tool_selection sample_server "host" 8811 "img" (Some "b")
              I I) as (Hnamed & _ & _).
  destruct (stdio_tool_selection sample_server "host" 8811 "img" None
              I I) as (_ & Hfirst & _).
  destruct (stdio_tool_selection toolless_server "host" 8811 "img" None
              I I) as (_ & _ & Hnone).
  split; [| split].
  - apply (Hnamed "b"); [reflexivity | discriminate].
  - apply (Hfirst tool_a [tool_b]); [reflexivity | reflexivity | discriminate].
  - apply Hnone; [reflexivity | by right].
Defined.

(** C2 as stated fails: with the tools ["a"] and ["b"] listed and the
    explicit name ["c"], the flow calls ["c"] (not the first listed tool),
    and it calls ["c"] even when nothing is listed. *)
Lemma named_unlisted_tool_is_called :
  Tool.name <$> [tool_a; tool_b] = ["a"; "b"] ∧
  list_tools sample_server = Ok [tool_a; tool_b] ∧
  tool_calls (trace (demo_stdio_client sample_server "host" 8811 "img"
                       (Some "c") false)) = [("c", ∅)] ∧
  list_tools toolless_server = Ok [] ∧
  tool_calls (trace (demo_stdio_client toolless_server "host" 8811 "img"
                       (Some "c") false)) = [("c", ∅)].
Proof. repeat split; vm_compute; reflexivity. Qed.

(** C9, as amended: once the session is established, a non-empty explicit
    tool name with the list-only flag off is called under that exact name
    even if the tool listing failed, was empty, or does not contain the
    name, and then with the empty argument mapping; when the listing does
    contain it, the call carries the synthesized arguments (and is made
    provided synthesizing them does not raise). *)
Theorem explicit_tool_is_called srv host port docker_image name :
  established srv → listings_caught srv → name ≠ "" →
  let tools := listed (list_tools srv) in
  let calls :=
    tool_calls (trace (demo_stdio_client srv host port docker_image
                         (Some name) false)) in
  (tools = None ∨ tools = Some [] ∨
   (∃ l, tools = Some l ∧ ∀ t, t ∈ l → Tool.name t ≠ name) →
   calls = [(name, ∅)]) ∧
  (∀ tool_args, synthesize_tool_args tools name = Ok tool_args →
                calls = [(name, tool_args)]).
Proof.
  intros Hup Hcaught Hname tools calls. subst calls.
  rewrite demo_stdio_client_tool_calls by done. fold tools.
  unfold planned_call. rewrite select_named, str_truthy_ne by done.
  split.
  - intros Hunlisted. by rewrite synthesize_unlisted.
  - by intros tool_args ->.
Qed.

Lemma explicit_tool_is_called_witness :
  tool_calls (trace (demo_stdio_client unlisting_server "host" 8811 "img"
                       (Some "c") false)) = [("c", ∅)] ∧
  tool_calls (trace (demo_stdio_client toolless_server "host" 8811 "img"
                       (Some "c") false)) = [("c", ∅)] ∧
  tool_calls (trace (demo_stdio_client sample_server "host" 8811 "img"
                       (Some "c") false)) = [("c", ∅)].
Proof.
  assert ("c" ≠ "") as Hc by discriminate.
  destruct (explicit_tool_is_called unlisting_server "host" 8811 "img" "c"
              I I Hc) as [Hfailed _].
  destruct (explicit_tool_is_called toolless_server "host" 8811 "img" "c"
              I I Hc) as [Hempty _].
  destruct (explicit_tool_is_called sample_server "host" 8811 "img" "c"
              I I Hc) as [Hother _].
  split; [| split].
  - apply Hfailed. by left.
  - apply Hempty. right. by left.
  - apply Hother. right. right. exists [tool_a; tool_b].
    split; [reflexivity |]. intros t Ht.
    apply elem_of_cons in Ht as [-> | Ht]; [discriminate |].
    apply list_elem_of_singleton in Ht as ->. discriminate.
Defined.

(** C9 as stated fails for the empty name: [--tool ""] is a supplied name
    that line 112 treats as none, so with a failed or empty listing no call
    is made, and with tools listed the first of them is called instead. *)
Lemma empty_tool_name_is_not_called :
  tool_calls (trace (demo_stdio_client unlisting_server "host" 8811 "img"
                       (Some "") false)) = [] ∧
  tool_calls (trace (demo_stdio_client toolless_server "host" 8811 "img"
                       (Some "") false)) = [] ∧
  tool_calls (trace (demo_stdio_client sample_server "host" 8811 "img"
                       (Some "") false)) =
    [("a", {[ "city" := PyStr "example"; "count" := PyInt 42;
              "ratio" := PyFloat 3.14%float ]})].
Proof. repeat split; vm_compute; reflexivity. Qed.

(** C10: when the tool found under the selected name carries no input
    schema, or a schema without a ["properties"] key, the tool is still
    called, and with exactly the empty argument mapping. *)
Theorem schemaless_tool_is_called srv host port docker_image tool_name
    tools name selected :
  established srv → listings_caught srv →
  list_tools srv = Ok tools →
  select_tool_name tool_name (Some tools) = Some name → name ≠ "" →
  find_tool tools name = Some selected →
  Tool.inputSchema selected = None ∨
  (∃ schema, Tool.inputSchema selected = Some schema ∧
             schema !! "properties" = None) →
  tool_calls (trace (demo_stdio_client srv host port docker_image tool_name
                       false)) = [(name, ∅)].
Proof.
  intros Hup Hcaught Htools Hselect Hname Hfind Hschema.
  rewrite demo_stdio_client_tool_calls by done.
  unfold planned_call. rewrite Htools. simpl listed.
  rewrite Hselect, str_truthy_ne by done.
  by rewrite (synthesize_schemaless tools name selected).
Qed.

Lemma schemaless_tool_is_called_witness :
  tool_calls (trace (demo_stdio_client bare_server "host" 8811 "img"
                       None false)) = [("bare", ∅)] ∧
  tool_calls (trace (demo_stdio_client bare_server "host" 8811 "img"
                       (Some "b") false)) = [("b", ∅)].
Proof.
  split.
  - apply (schemaless_tool_is_called bare_server "host" 8811 "img" None
             [tool_bare; tool_b] "bare" tool_bare);
      try reflexivity; [discriminate |].
    right. by exists {[ "type" := PyStr "object" ]}.
  - apply (schemaless_tool_is_called bare_server "host" 8811 "img"
             (Some "b") [tool_bare; tool_b] "b" tool_b);
      try reflexivity; [discriminate |]. by left.
Defined.

(** C4: with the list-only flag set the stdio flow never attempts a tool
    call, whatever the server answers, whatever is listed and whatever
    tool name was given: its requests stay within the handshake and the
    three listings.  On an established session it issues exactly those
    and then returns. *)
Theorem list_only_makes_no_call srv host port docker_image tool_name :
  let run := demo_stdio_client srv host port docker_image tool_name true in
  tool_calls (trace run) = [] ∧
  requests (trace run)
    `prefix_of` [Initialize; ListPrompts; ListResources; ListTools] ∧
  (established srv → listings_caught srv →
   requests (trace run) = [Initialize; ListPrompts; ListResources; ListTools]
   ∧ ending run = Normal tt).
Proof.
  intros run. subst run.
  pose proof (demo_stdio_client_list_only_requests srv host port docker_image
                tool_name) as Hprefix.
  split; [| split; [exact Hprefix |]].
  - rewrite tool_calls_requests. destruct Hprefix as [rest Hrest].
    destruct (requests _) as [| r1 [| r2 [| r3 [| r4 [| r5 l]]]]];
      by simplify_eq/=.
  - intros Hup Hcaught.
    rewrite demo_stdio_client_requests, demo_stdio_client_ending by done.
    done.
Qed.

Lemma list_only_makes_no_call_witness :
  tool_calls (trace (demo_stdio_client sample_server "host" 8811 "img"
                       (Some "a") true)) = [] ∧
  requests (trace (demo_stdio_client sample_server "host" 8811 "img"
                     (Some "a") true)) =
    [Initialize; ListPrompts; ListResources; ListTools] ∧
  ending (demo_stdio_client sample_server "host" 8811 "img" (Some "a") true)
    = Normal tt.
Proof.
  destruct (list_only_makes_no_call sample_server "host" 8811 "img"
              (Some "a")) as (Hcalls & _ & Hrun).
  split; [exact Hcalls |]. apply Hrun; reflexivity.
Defined.

(** ** Where a report stands in the trace *)

Lemma segment_refl s : segment s s.
Proof. exists [], []. by rewrite app_nil_r. Qed.

Lemma segment_app_l s t1 t2 : segment s t1 → segment s (t1 ++ t2).
Proof.
  intros (before & after & ->). exists before, (after ++ t2).
  by rewrite <- !app_assoc.
Qed.

Lemma segment_app_r s t1 t2 : segment s t2 → segment s (t1 ++ t2).
Proof.
  intros (before & after & ->). exists (t1 ++ before), after.
  by rewrite <- !app_assoc.
Qed.

Lemma segment_cons s ev t : segment s t → segment s (ev :: t).
Proof. apply (segment_app_r s [ev]). Qed.

Lemma trace_bind {A B} (m : M A) (f : A → M B) :
  trace (m ≫= f) =
  trace m ++ match ending m with
             | Normal a => trace (f a)
             | _ => []
             end.
Proof.
  unfold mbind, M_bind. destruct (ending m); simpl; by rewrite ?app_nil_r.
Qed.

Lemma trace_try {A} (body : M A) (clauses : list (except_clause A)) :
  trace (try_except body clauses) =
  trace body ++
  match ending body with
  | Raised e =>
      match matching_clause clauses e with
      | Some handling => trace handling
      | None => []
      end
  | _ => []
  end.
Proof.
  unfold try_except.
  destruct (ending body) as [a | e |]; rewrite ?app_nil_r; try done.
  destruct (matching_clause clauses e); by rewrite ?app_nil_r.
Qed.

Lemma trace_async_def (body : M unit) :
  trace (async_def body) = trace body.
Proof. unfold async_def. by destruct (ending body). Qed.

Lemma segment_bind_l {A B} s (m : M A) (f : A → M B) :
  segment s (trace m) → segment s (trace (m ≫= f)).
Proof. rewrite trace_bind. apply segment_app_l. Qed.

Lemma segment_bind_r {A B} s (m : M A) (f : A → M B) a :
  ending m = Normal a → segment s (trace (f a)) →
  segment s (trace (m ≫= f)).
Proof. intros E. rewrite trace_bind, E. apply segment_app_r. Qed.

Lemma segment_try {A} s (body : M A) clauses :
  segment s (trace body) → segment s (trace (try_except body clauses)).
Proof.
  unfold try_except. destruct (ending body) as [| e |]; try done.
  destruct (matching_clause clauses e); [| done]. apply segment_app_l.
Qed.

Lemma segment_async_with {A} s enter exit (body : M A) :
  segment s (trace body) →
  segment s (trace (async_with enter None exit body)).
Proof. intros H. simpl. by apply segment_cons, segment_app_l. Qed.

Lemma segment_async_def s (body : M unit) :
  segment s (trace body) → segment s (trace (async_def body)).
Proof. unfold async_def. by destruct (ending body). Qed.

(** A listing that raised an [Exception] leaves its request immediately
    followed by the handler's line. *)
Lemma stdio_list_prompts_failed srv e :
  list_prompts srv = Err e → is_Exception e →
  segment [Await ListPrompts; Print ("Error listing prompts: " +:+ exn_msg e)]
          (trace (stdio_list_prompts srv)).
Proof.
  intros Hanswer He. unfold stdio_list_prompts.
  eapply segment_bind_r; [reflexivity |].
  erewrite guarded_request_failed by done. apply segment_refl.
Qed.

Lemma stdio_list_resources_failed srv e :
  list_resources srv = Err e → is_Exception e →
  segment [Await ListResources;
           Print ("Error listing resources: " +:+ exn_msg e)]
          (trace (stdio_list_resources srv)).
Proof.
  intros Hanswer He. unfold stdio_list_resources.
  eapply segment_bind_r; [reflexivity |].
  erewrite guarded_request_failed by done. apply segment_refl.
Qed.

Lemma stdio_list_tools_failed srv e :
  list_tools srv = Err e → is_Exception e →
  segment [Await ListTools; Print ("Error listing tools: " +:+ exn_msg e)]
          (trace (stdio_list_tools srv)).
Proof.
  intros Hanswer He. unfold stdio_list_tools.
  eapply segment_bind_r; [reflexivity |].
  erewrite guarded_request_failed by done. apply segment_refl.
Qed.

(** What happens in the session happens in the flow. *)
Lemma segment_demo_stdio_client s srv host port docker_image tool_name
    list_only :
  established srv →
  segment s (trace (stdio_session srv tool_name list_only)) →
  segment s (trace (demo_stdio_client srv host port docker_image tool_name
                      list_only)).
Proof.
  intros (Ht & Hs & _)%established_fields Hsession.
  unfold demo_stdio_client. apply segment_async_def.
  eapply segment_bind_r; [reflexivity |]. apply segment_try.
  rewrite Ht, Hs. by do 2 apply segment_async_with.
Qed.

Lemma caught_ending {A} (answer : result A) :
  caught answer → guarded answer (λ _, tt) tt = Normal tt.
Proof. intros H. rewrite guarded_caught by done. by destruct answer. Qed.

Lemma segment_stdio_session srv tool_name list_only :
  initialize srv = None → listings_caught srv →
  (∀ s, segment s (trace (stdio_list_prompts srv)) →
        segment s (trace (stdio_session srv tool_name list_only))) ∧
  (∀ s, segment s (trace (stdio_list_resources srv)) →
        segment s (trace (stdio_session srv tool_name list_only))) ∧
  (∀ s, segment s (trace (stdio_list_tools srv)) →
        segment s (trace (stdio_session srv tool_name list_only))).
Proof.
  intros Hinit (Hp & Hr & Ht)%listings_caught_fields.
  assert (ending (await Initialize (unit_answer (initialize srv)))
          = Normal tt) as Hawait by (by rewrite Hinit).
  assert (ending (stdio_list_prompts srv) = Normal tt) as Hprompts
    by (by rewrite stdio_list_prompts_ending, caught_ending).
  assert (ending (stdio_list_resources srv) = Normal tt) as Hresources
    by (by rewrite stdio_list_resources_ending, caught_ending).
  unfold stdio_session. repeat split; intros s Hs.
  - eapply segment_bind_r; [reflexivity |].
    eapply segment_bind_r; [exact Hawait |].
    eapply segment_bind_r; [reflexivity |].
    by apply segment_bind_l.
  - eapply segment_bind_r; [reflexivity |].
    eapply segment_bind_r; [exact Hawait |].
    eapply segment_bind_r; [reflexivity |].
    eapply segment_bind_r; [exact Hprompts |].
    by apply segment_bind_l.
  - eapply segment_bind_r; [reflexivity |].
    eapply segment_bind_r; [exact Hawait |].
    eapply segment_bind_r; [reflexivity |].
    eapply segment_bind_r; [exact Hprompts |].
    eapply segment_bind_r; [exact Hresources |].
    by apply segment_bind_l.
Qed.

(** C6: on an established session, an [Exception] raised by any of the
    three listings is reported right where it was raised (the request is
    followed by the error line) and aborts nothing: the handshake and all
    three listings are issued, in order, followed by the tool call that was
    due; and the tool calls are the ones the flow makes against the same
    server with working prompt and resource listings. *)
Theorem listing_failures_are_isolated srv host port docker_image tool_name
    list_only :
  established srv → listings_caught srv →
  let run :=
    demo_stdio_client srv host port docker_image tool_name list_only in
  requests (trace run) =
    [Initialize; ListPrompts; ListResources; ListTools] ++
    ((λ call, CallTool call.1 call.2) <$>
     (if list_only then []
      else planned_call tool_name (listed (list_tools srv)))) ∧
  (∀ e, list_prompts srv = Err e →
        segment [Await ListPrompts;
                 Print ("Error listing prompts: " +:+ exn_msg e)]
                (trace run)) ∧
  (∀ e, list_resources srv = Err e →
        segment [Await ListResources;
                 Print ("Error listing resources: " +:+ exn_msg e)]
                (trace run)) ∧
  (∀ e, list_tools srv = Err e →
        segment [Await ListTools;
                 Print ("Error listing tools: " +:+ exn_msg e)]
                (trace run)) ∧
  (∀ prompts resources,
     tool_calls (trace run) =
     tool_calls (trace (demo_stdio_client
                          (with_listings srv (Ok prompts) (Ok resources))
                          host port docker_image tool_name list_only))).
Proof.
  intros Hup Hcaught run. subst run.
  destruct (established_fields srv Hup) as (_ & _ & Hinit).
  destruct (listings_caught_fields srv Hcaught) as (Hp & Hr & Ht).
  destruct (segment_stdio_session srv tool_name list_only Hinit Hcaught)
    as (Sp & Sr & St).
  split; [by apply demo_stdio_client_requests |].
  split; [| split; [| split]].
  - intros e He. rewrite He in Hp.
    by apply segment_demo_stdio_client, Sp, stdio_list_prompts_failed.
  - intros e He. rewrite He in Hr.
    by apply segment_demo_stdio_client, Sr, stdio_list_resources_failed.
  - intros e He. rewrite He in Ht.
    by apply segment_demo_stdio_client, St, stdio_list_tools_failed.
  - intros prompts resources.
    rewrite !demo_stdio_client_tool_calls; done.
Qed.

Lemma listing_failures_are_isolated_witness :
  requests (trace (demo_stdio_client sample_server "host" 8811 "img" None
                     false)) =
    [Initialize; ListPrompts; ListResources; ListTools;
     CallTool "a" {[ "city" := PyStr "example"; "count" := PyInt 42;
                     "ratio" := PyFloat 3.14%float ]}] ∧
  segment [Await ListResources;
           Print "Error listing resources: Method not found"]
          (trace (demo_stdio_client sample_server "host" 8811 "img" None
                    false)).
Proof.
  destruct (listing_failures_are_isolated sample_server "host" 8811 "img"
              None false I I) as (Hrequests & _ & Hresources & _).
  split; [exact Hrequests |].
  by apply (Hresources (Exn OtherException "Method not found")).
Defined.

(** ** Substrings, case-insensitively *)

Lemma starts_with_spec p s :
  starts_with p s = true ↔ ∃ post, s = p +:+ post.
Proof.
  revert s. induction p as [| a p IH]; intros s; simpl.
  - split; [by exists s | done].
  - destruct s as [| b s].
    + split; [done | by intros [post ?]].
    + rewrite andb_true_iff, bool_decide_eq_true, IH. split.
      * intros [-> [post ->]]. by exists post.
      * intros [post [= -> ->]]. split; [done | by exists post].
Qed.

Lemma str_in_spec needle s :
  str_in needle s = true ↔ ∃ pre post, s = pre +:+ needle +:+ post.
Proof.
  induction s as [| c s IH]; simpl; rewrite orb_true_iff, starts_with_spec.
  - split.
    + intros [[post H] | ?]; [| done]. by exists "", post.
    + intros (pre & post & H). left.
      destruct pre; [by exists post | done].
  - rewrite IH. split.
    + intros [[post H] | (pre & post & ->)].
      * by exists "", post.
      * by exists (String c pre), post.
    + intros (pre & post & H). destruct pre as [| c' pre].
      * left. by exists post.
      * right. injection H as -> ->. by exists pre, post.
Qed.

Lemma lower_app a b : lower (a +:+ b) = lower a +:+ lower b.
Proof. induction a as [| c a IH]; simpl; by rewrite ?IH. Qed.

Lemma lower_split s a b :
  lower s = a +:+ b → ∃ a' b', s = a' +:+ b' ∧ lower a' = a ∧ lower b' = b.
Proof.
  revert s. induction a as [| c a IH]; intros s H.
  - by exists "", s.
  - destruct s as [| c' s]; [done |]. simpl in H. injection H as Hc Hs.
    destruct (IH s Hs) as (a' & b' & -> & Ha & Hb).
    exists (String c' a'), b'. simpl. by rewrite Hc, Ha.
Qed.

(** ["needle" in s.lower()] says that some substring of [s] lowers to the
    needle. *)
Lemma str_in_lower needle s :
  str_in needle (lower s) = true ↔
  ∃ pre w post, s = pre +:+ w +:+ post ∧ lower w = needle.
Proof.
  rewrite str_in_spec. split.
  - intros (pre & post & H).
    apply lower_split in H as (pre' & rest & -> & _ & H).
    apply lower_split in H as (w & post' & -> & Hw & _).
    by exists pre', w, post'.
  - intros (pre & w & post & -> & <-).
    exists (lower pre), (lower post). by rewrite !lower_app.
Qed.

(** ** The HTTP flow, block by block *)

Lemma http_resources_ending srv :
  ending (http_resources srv) = guarded (list_resources srv) (λ _, tt) tt.
Proof.
  unfold http_resources. rewrite ending_bind, ending_print.
  apply guarded_request_ending; intros.
  - apply report_only_prints.
  - apply print_only_prints.
Qed.

Lemma http_on_connection_error_prints server_url e :
  only_prints (http_on_connection_error server_url e) tt.
Proof.
  unfold http_on_connection_error.
  repeat (eapply bind_only_prints; [apply print_only_prints |]).
  apply print_only_prints.
Qed.

Lemma http_on_exception_prints server_url e :
  only_prints (http_on_exception server_url e) tt.
Proof.
  unfold http_on_exception.
  repeat (eapply bind_only_prints; [apply print_only_prints |]).
  apply print_only_prints.
Qed.

Section silent_http.
Context {X : Type} (g : event → option X).
Hypothesis g_print : ∀ line, g (Print line) = None.

Lemma http_resources_proj srv :
  omap g (trace (http_resources srv)) = option_list (g (Await ListResources)).
Proof.
  unfold http_resources. rewrite proj_bind, proj_print, g_print.
  apply (guarded_request_proj _ _ _ _ (λ _, tt) tt); intros; try done.
  - apply report_only_prints.
  - apply print_only_prints.
Qed.

(** Lines 176-182 for the tool named [tool_name]: one call, then a print;
    an exception of the call is left to the handler of line 185. *)
Lemma http_call_proj srv tool_name :
  omap g (trace
    (if str_in "echo" (lower tool_name) then
       result ← await
         (CallTool tool_name {[ "message" := PyStr "Hello via HTTP!" ]})
         (call_tool srv tool_name {[ "message" := PyStr "Hello via HTTP!" ]});
       print ("Tool result: " +:+ result)
     else
       result ← await (CallTool tool_name ∅) (call_tool srv tool_name ∅);
       print ("Tool result: " +:+ result))) =
  option_list (g (Await (CallTool tool_name (http_arguments tool_name)))).
Proof.
  unfold http_arguments.
  destruct (str_in "echo" (lower tool_name));
    rewrite proj_bind, proj_await, ending_await;
    destruct (call_tool srv tool_name _);
    by rewrite ?proj_print, ?g_print, app_nil_r.
Qed.

Lemma handler_silent {A} (o : outcome A) (h : exn → M A) :
  (∀ e, omap g (trace (h e)) = []) →
  match o with
  | Raised e =>
      match matching_clause [(is_Exception, h)] e with
      | Some handling => omap g (trace handling)
      | None => []
      end
  | _ => []
  end = [].
Proof.
  intros Hh. destruct o as [| e |]; try done. simpl.
  by destruct (is_Exception e).
Qed.

Lemma http_tools_proj srv :
  omap g (trace (http_tools srv)) =
  option_list (g (Await ListTools)) ++
  match list_tools srv with
  | Ok (first :: _) =>
      option_list (g (Await (CallTool (Tool.name first)
                               (http_arguments (Tool.name first)))))
  | _ => []
  end.
Proof.
  unfold http_tools.
  rewrite proj_bind, proj_print, g_print, ending_print, silent_app.
  rewrite proj_try, proj_bind, proj_await, ending_bind, ending_await.
  rewrite <- app_assoc. f_equal.
  rewrite handler_silent by (intros; by rewrite proj_print, g_print).
  rewrite app_nil_r.
  destruct (list_tools srv) as [[| first rest] | e]; [| | done].
  - by rewrite proj_print, g_print.
  - rewrite proj_bind.
    rewrite (proj_only_prints g _ tt g_print)
      by (apply for_each_only_prints; intros; apply print_only_prints).
    rewrite (proj1 (for_each_only_prints _ _
                      (λ x, print_only_prints _))).
    rewrite proj_bind, proj_print, g_print, ending_print.
    apply http_call_proj.
Qed.

Lemma http_session_proj srv :
  omap g (trace (http_session srv)) =
  option_list (g (Await Initialize)) ++
  match initialize srv with
  | Some _ => []
  | None =>
      omap g (trace (http_tools srv)) ++
      match ending (http_tools srv) with
      | Normal _ => option_list (g (Await ListResources))
      | _ => []
      end
  end.
Proof.
  unfold http_session.
  rewrite proj_bind, proj_print, g_print, ending_print, silent_app.
  rewrite proj_bind, proj_await, ending_await. f_equal.
  destruct (initialize srv); [done |]. cbn [unit_answer].
  rewrite proj_bind, proj_print, g_print, ending_print, silent_app.
  rewrite proj_bind. f_equal.
  destruct (ending (http_tools srv)); try done.
  apply http_resources_proj.
Qed.

Lemma demo_http_client_proj srv server_url :
  omap g (trace (demo_http_client srv server_url)) =
  option_list (g (StreamableHttpEnter server_url)) ++
  match transport_enter srv with
  | Some _ => []
  | None =>
      (option_list (g (ClientSessionEnter None)) ++
       match session_enter srv with
       | Some _ => []
       | None =>
           omap g (trace (http_session srv)) ++
           option_list (g ClientSessionExit)
       end) ++
      option_list (g TransportExit)
  end.
Proof.
  unfold demo_http_client, http_try.
  rewrite proj_async_def, proj_bind, proj_print, g_print, ending_print,
    silent_app.
  rewrite proj_bind, proj_print, g_print, ending_print, silent_app.
  rewrite proj_try, !proj_async_with.
  etrans; [| apply app_nil_r].
  f_equal. destruct (ending _) as [| e |]; try done. simpl.
  destruct (is_ConnectionError e);
    [by apply (proj_only_prints g _ tt), http_on_connection_error_prints |].
  destruct (is_Exception e); [| done].
  by apply (proj_only_prints g _ tt), http_on_exception_prints.
Qed.

End silent_http.

(** Seen through a [g] that ignores prints and requests, a session shows
    nothing. *)
Lemma http_session_quiet {X} (g : event → option X) srv :
  (∀ line, g (Print line) = None) → (∀ r, g (Await r) = None) →
  omap g (trace (http_session srv)) = [].
Proof.
  intros g_print g_await.
  rewrite (http_session_proj g g_print), (http_tools_proj g g_print).
  rewrite !g_await. destruct (initialize srv); [done |].
  destruct (list_tools srv) as [[| first rest] | e];
    rewrite ?g_await; by destruct (ending _).
Qed.

(** The HTTP flow opens its endpoint once and launches no subprocess,
    whatever the server does. *)
Lemma demo_http_client_opens srv server_url :
  http_opens (trace (demo_http_client srv server_url)) = [server_url].
Proof.
  unfold http_opens.
  rewrite (demo_http_client_proj http_open_of) by done.
  rewrite (http_session_quiet http_open_of) by done.
  by destruct (transport_enter srv), (session_enter srv).
Qed.

Lemma demo_http_client_launches srv server_url :
  launches (trace (demo_http_client srv server_url)) = [].
Proof.
  unfold launches.
  rewrite (demo_http_client_proj launch_of) by done.
  rewrite (http_session_quiet launch_of) by done.
  by destruct (transport_enter srv), (session_enter srv).
Qed.

Lemma demo_http_client_tool_calls srv server_url :
  established srv →
  tool_calls (trace (demo_http_client srv server_url)) =
  match list_tools srv with
  | Ok (first :: _) =>
      [(Tool.name first, http_arguments (Tool.name first))]
  | _ => []
  end.
Proof.
  intros (Ht & Hs & Hi)%established_fields. unfold tool_calls.
  rewrite (demo_http_client_proj tool_call_of) by done.
  rewrite Ht, Hs, (http_session_proj tool_call_of) by done.
  rewrite Hi, (http_tools_proj tool_call_of) by done.
  destruct (list_tools srv) as [[| first rest] | e];
    destruct (ending _); done.
Qed.

(** ** The claims about the HTTP flow *)

(** C5: on an established HTTP session whose tool listing is not empty,
    the first listed tool is the one called; the arguments are exactly
    [{"message": "Hello via HTTP!"}] when some substring of its name is
    ["echo"] up to case, and the empty mapping otherwise. *)
Theorem http_calls_first_tool srv server_url first rest :
  established srv → list_tools srv = Ok (first :: rest) →
  let calls := tool_calls (trace (demo_http_client srv server_url)) in
  ((∃ pre w post, Tool.name first = pre +:+ w +:+ post ∧ lower w = "echo") →
   calls = [(Tool.name first, {[ "message" := PyStr "Hello via HTTP!" ]})]) ∧
  (¬ (∃ pre w post, Tool.name first = pre +:+ w +:+ post ∧ lower w = "echo") →
   calls = [(Tool.name first, ∅)]).
Proof.
  intros Hup Htools calls. subst calls.
  rewrite demo_http_client_tool_calls, Htools by done.
  unfold http_arguments. rewrite <- str_in_lower.
  destruct (str_in "echo" (lower (Tool.name first))); split; done.
Qed.

Lemma http_calls_first_tool_witness :
  tool_calls (trace (demo_http_client echo_server "http://localhost:8000/mcp"))
    = [("EchoTool", {[ "message" := PyStr "Hello via HTTP!" ]})] ∧
  tool_calls (trace (demo_http_client uppercase_server
                       "http://localhost:8000/mcp"))
    = [("uppercase", ∅)].
Proof.
  split.
  - apply (http_calls_first_tool echo_server "http://localhost:8000/mcp"
             (Tool.mk "EchoTool" None None) [tool_a] I eq_refl).
    by exists "", "Echo", "Tool".
  - apply (http_calls_first_tool uppercase_server "http://localhost:8000/mcp"
             (Tool.mk "uppercase" None (Some sample_schema)) [] I eq_refl).
    rewrite <- str_in_lower. by vm_compute.
Defined.

(** How the [try] block of the HTTP flow can end: the listing blocks
    handle every [Exception] themselves, so an [Exception] that leaves it
    was raised by one of the two context managers or by the handshake. *)
Lemma http_tools_ending srv :
  ending (http_tools srv) =
  match list_tools srv with
  | Ok [] => Normal tt
  | Ok (first :: _) =>
      guarded (call_tool srv (Tool.name first)
                 (http_arguments (Tool.name first))) (λ _, tt) tt
  | Err e => if is_Exception e then Normal tt else Raised e
  end.
Proof.
  unfold http_tools.
  rewrite ending_bind, ending_print, ending_try, ending_bind, ending_await.
  destruct (list_tools srv) as [[| first rest] | e]; [done | |].
  - rewrite ending_bind,
      (proj1 (for_each_only_prints _ _ (λ x, print_only_prints _))).
    rewrite ending_bind, ending_print. unfold http_arguments.
    destruct (str_in "echo" (lower (Tool.name first)));
      rewrite ending_bind, ending_await;
      destruct (call_tool srv (Tool.name first) _) as [r | e]; try done;
      simpl; by destruct (is_Exception e).
  - simpl. by destruct (is_Exception e).
Qed.

Lemma http_try_raised srv server_url e :
  ending (http_try srv server_url) = Raised e → is_Exception e →
  transport_enter srv = Some e ∨
  (transport_enter srv = None ∧ session_enter srv = Some e) ∨
  (transport_enter srv = None ∧ session_enter srv = None ∧
   initialize srv = Some e).
Proof.
  unfold http_try. rewrite !ending_async_with.
  destruct (transport_enter srv) as [e1 |]; [intros [= ->]; by left |].
  destruct (session_enter srv) as [e2 |];
    [intros [= ->]; right; by left |].
  unfold http_session.
  rewrite ending_bind, ending_print, ending_bind, ending_await.
  destruct (initialize srv) as [e3 |];
    [intros [= ->]; right; by right |].
  cbn [unit_answer].
  rewrite ending_bind, ending_print, ending_bind, http_tools_ending.
  intros Hraised He. exfalso. revert Hraised.
  assert (∀ A (answer : result A) o,
            guarded answer (λ _, tt) tt = o → o ≠ Raised e) as Hguarded.
  { intros A [a | e'] o <-; simpl; [done |].
    destruct (is_Exception e') eqn:E; [done |]. intros [= ->].
    by rewrite E in He. }
  assert (ending (http_resources srv) ≠ Raised e) as Hresources
    by (by eapply Hguarded, eq_sym, http_resources_ending).
  destruct (list_tools srv) as [[| first rest] | e'].
  - done.
  - destruct (guarded _ _ _) as [[] | e' |] eqn:E; [done | | done].
    by apply Hguarded in E.
  - destruct (is_Exception e') eqn:E; [done |]. intros [= ->].
    by rewrite E in He.
Qed.

(** C7: an [Exception] that leaves the session body of the HTTP flow is
    taken by exactly one of the two [except] clauses (the
    [ConnectionError] one when it is a connection error, the catch-all one
    otherwise); the clause prints the failure and the remediation lines
    naming the given URL and nothing more happens: the flow ends normally,
    the endpoint was opened once, and nothing reaches the caller. *)
Theorem http_failure_is_terminal srv server_url e :
  ending (http_try srv server_url) = Raised e → is_Exception e →
  let run := demo_http_client srv server_url in
  ending run = Normal tt ∧
  trace run =
    Print (NL +:+ "=== MCP HTTP Client Demo ===")
    :: Print ("Attempting to connect to: " +:+ server_url)
    :: trace (http_try srv server_url) ++
       [Print (if is_ConnectionError e
               then "HTTP connection failed: " +:+ exn_msg e
               else "HTTP client error: " +:+ exn_msg e);
        Print (if is_ConnectionError e
               then "Make sure an MCP server is running at " +:+ server_url
               else "This might be because no server is running at "
                    +:+ server_url);
        Print "To start the server in HTTP mode, run:";
        Print "  python mcp/mcp_server.py --transport streamable-http --port 8000"]
  ∧ http_opens (trace run) = [server_url].
Proof.
  intros Hraised He run. subst run.
  split; [| split; [| apply demo_http_client_opens]].
  - unfold demo_http_client.
    rewrite ending_async_def, !ending_bind, !ending_print, ending_try,
      Hraised.
    cbn [matching_clause]. destruct (is_ConnectionError e); [done |].
    by destruct (is_Exception e).
  - unfold demo_http_client.
    rewrite trace_async_def, !trace_bind, !ending_print, trace_try, Hraised.
    cbn [matching_clause]. destruct (is_ConnectionError e); [done |].
    by destruct (is_Exception e).
Qed.

Lemma http_failure_is_terminal_witness :
  demo_http_client refusing_server "http://localhost:8000/mcp" =
  Run [Print (NL +:+ "=== MCP HTTP Client Demo ===");
       Print "Attempting to connect to: http://localhost:8000/mcp";
       StreamableHttpEnter "http://localhost:8000/mcp";
       Print "HTTP connection failed: Connection refused";
       Print "Make sure an MCP server is running at http://localhost:8000/mcp";
       Print "To start the server in HTTP mode, run:";
       Print "  python mcp/mcp_server.py --transport streamable-http --port 8000"]
      (Normal tt) ∧
  ending (demo_http_client timing_out_server "http://localhost:8000/mcp") =
  Normal tt.
Proof.
  destruct (http_failure_is_terminal refusing_server
              "http://localhost:8000/mcp"
              (Exn ConnectionError "Connection refused") eq_refl I)
    as (Hending & Htrace & _).
  destruct (http_failure_is_terminal timing_out_server
              "http://localhost:8000/mcp"
              (Exn OtherException "Timed out") eq_refl I)
    as (Hending' & _).
  split; [| exact Hending'].
  destruct (demo_http_client refusing_server _) as [t o].
  simpl in Hending, Htrace. by rewrite Hending, Htrace.
Defined.

(** ** The entry point *)

Lemma main_http w args url :
  http_url args = Some url → url ≠ "" →
  trace (main w args) = trace (demo_http_client (http_peer w url) url) ∧
  ending (main w args) = ending (demo_http_client (http_peer w url) url).
Proof.
  intros Hurl Hne. unfold main. rewrite Hurl, str_truthy_ne by done.
  pose proof (async_def_not_returned
                (print (NL +:+ "=== MCP HTTP Client Demo ===") ;;
                 print ("Attempting to connect to: " +:+ url) ;;
                 try_except (http_try (http_peer w url) url)
                   [(is_ConnectionError, http_on_connection_error url);
                    (is_Exception, http_on_exception url)])) as Hnot.
  fold (demo_http_client (http_peer w url) url) in Hnot.
  rewrite trace_async_def, trace_bind, ending_async_def, ending_bind.
  destruct (ending (demo_http_client (http_peer w url) url)) as [[] | e |];
    by rewrite ?app_nil_r.
Qed.

Lemma main_stdio_run w args :
  opt_str_truthy (http_url args) = false →
  main w args = main_stdio w args.
Proof.
  intros Hfalsy. unfold main.
  assert (async_def (main_stdio w args) = main_stdio w args) as Hdef.
  { unfold main_stdio, demo_stdio_client, async_def at 1.
    rewrite ending_async_def. by destruct (ending _). }
  destruct (http_url args) as [url |]; [| exact Hdef].
  simpl in Hfalsy. by rewrite Hfalsy.
Qed.

(** C3, as amended: whenever the HTTP URL option holds a non-empty URL,
    the entry point runs the HTTP flow and nothing else, whatever the other
    options are: its trace is that of the HTTP flow on that URL, it ends as
    the HTTP flow ends, and the stdio transport launches no subprocess. *)
Theorem http_url_runs_only_http w args url :
  http_url args = Some url → url ≠ "" →
  trace (main w args) = trace (demo_http_client (http_peer w url) url) ∧
  ending (main w args) = ending (demo_http_client (http_peer w url) url) ∧
  launches (trace (main w args)) = [] ∧
  http_opens (trace (main w args)) = [url].
Proof.
  intros Hurl Hne. destruct (main_http w args url Hurl Hne) as [Ht He].
  rewrite Ht.
  by rewrite demo_http_client_launches, demo_http_client_opens.
Qed.

Lemma http_url_runs_only_http_witness :
  launches (trace (main sample_world http_and_stdio_flags)) = [] ∧
  http_opens (trace (main sample_world http_and_stdio_flags)) =
    ["http://localhost:8000/mcp"].
Proof.
  assert ("http://localhost:8000/mcp" ≠ "") as Hne by discriminate.
  destruct (http_url_runs_only_http sample_world http_and_stdio_flags
              "http://localhost:8000/mcp" eq_refl Hne)
    as (_ & _ & Hlaunches & Hopens).
  by split.
Defined.

(** C3 as stated fails for a URL option that is present but empty: line 224
    tests truthiness, so [--http-url ""] runs the stdio flow, which launches
    the bridge subprocess, and no HTTP endpoint is opened. *)
Lemma empty_http_url_runs_stdio :
  http_url empty_http_url_flags = Some "" ∧
  launches (trace (main sample_world empty_http_url_flags)) =
    [("docker", ["run"; "-i"; "--rm"; "alpine/socat"; "STDIO";
                 "TCP:host.docker.internal:8811"])] ∧
  http_opens (trace (main sample_world empty_http_url_flags)) = [] ∧
  tool_calls (trace (main sample_world empty_http_url_flags)) =
    [("a", {[ "city" := PyStr "example"; "count" := PyInt 42;
              "ratio" := PyFloat 3.14%float ]})].
Proof. repeat split; vm_compute; reflexivity. Qed.

(** ** The sampling callback *)

Lemma proj_bind_nil {X A B} (g : event → option X) (m : M A) (f : A → M B) :
  omap g (trace m) = [] → (∀ a, omap g (trace (f a)) = []) →
  omap g (trace (m ≫= f)) = [].
Proof.
  intros Hm Hf. rewrite proj_bind, Hm.
  destruct (ending m); [apply Hf | done | done].
Qed.

(** Seen through a [g] that ignores prints and requests, the stdio session
    shows nothing. *)
Lemma stdio_session_quiet {X} (g : event → option X) srv tool_name
    list_only :
  (∀ line, g (Print line) = None) → (∀ r, g (Await r) = None) →
  omap g (trace (stdio_session srv tool_name list_only)) = [].
Proof.
  intros g_print g_await. unfold stdio_session.
  apply proj_bind_nil; [by rewrite proj_print, g_print | intros _].
  apply proj_bind_nil; [by rewrite proj_await, g_await | intros _].
  apply proj_bind_nil; [by rewrite proj_print, g_print | intros _].
  apply proj_bind_nil;
    [by rewrite stdio_list_prompts_proj, g_await | intros _].
  apply proj_bind_nil;
    [by rewrite stdio_list_resources_proj, g_await | intros _].
  apply proj_bind_nil;
    [by rewrite stdio_list_tools_proj, g_await | intros tools].
  destruct list_only; [done |].
  rewrite stdio_call_selected_proj by done.
  destruct (select_tool_name _ _) as [name |]; [| done].
  destruct (str_truthy name); [| done].
  destruct (synthesize_tool_args _ _); by rewrite ?g_await.
Qed.

Lemma demo_stdio_client_callbacks srv host port docker_image tool_name
    list_only :
  session_callbacks (trace (demo_stdio_client srv host port docker_image
                              tool_name list_only)) =
  match transport_enter srv with
  | None => [Some handle_sampling_message]
  | Some _ => []
  end.
Proof.
  unfold session_callbacks, demo_stdio_client.
  rewrite proj_async_def, proj_bind, proj_print, ending_print, proj_try,
    !proj_async_with, !ending_async_with.
  rewrite (stdio_session_quiet session_callback_of) by done.
  destruct (transport_enter srv) as [e |]; cbn.
  { by destruct (is_Exception e). }
  destruct (session_enter srv) as [e |]; cbn.
  { by destruct (is_Exception e). }
  destruct (ending _) as [[] | e |]; try done.
  by destruct (is_Exception e).
Qed.

(** C8: the sampling callback is a constant function: any two requests
    get the same reply, which has the assistant role, the fixed text and
    the stop reason ["endTurn"]; and it is the callback every session of
    the stdio flow is opened with. *)
Theorem sampling_reply_is_constant (message message' :
    CreateMessageRequestParams) :
  handle_sampling_message message = handle_sampling_message message' ∧
  role (handle_sampling_message message) = "assistant" ∧
  content (handle_sampling_message message) =
    {| type := "text"; text := "Hello from MCP client!" |} ∧
  stopReason (handle_sampling_message message) = "endTurn" ∧
  ∀ srv host port docker_image tool_name list_only callback,
    callback ∈ session_callbacks
                 (trace (demo_stdio_client srv host port docker_image
                           tool_name list_only)) →
    callback = Some handle_sampling_message.
Proof.
  repeat split.
  intros srv host port docker_image tool_name list_only callback.
  rewrite demo_stdio_client_callbacks.
  destruct (transport_enter srv); [by intros ?%elem_of_nil |].
  by intros ->%list_elem_of_singleton.
Qed.

(** ** Two runs in full *)

Example malformed_schema_run :
  demo_stdio_client malformed_server "host" 8811 "img" None false =
  Run [Print "=== MCP Stdio Client Demo ===";
       StdioClientEnter "docker"
         ["run"; "-i"; "--rm"; "img"; "STDIO"; "TCP:host:8811"];
       ClientSessionEnter (Some handle_sampling_message);
       Print "Initializing connection...";
       Await Initialize;
       Print "✓ Connection initialized";
       Print (NL +:+ "--- Listing Prompts ---");
       Await ListPrompts;
       Print "No prompts available";
       Print (NL +:+ "--- Listing Resources ---");
       Await ListResources;
       Print "No resources available";
       Print (NL +:+ "--- Listing Tools ---");
       Await ListTools;
       Print "Tool: bad - None";
       Print (NL +:+ "--- Calling Tool: bad ---");
       ClientSessionExit;
       TransportExit;
       Print "Stdio client error: 'bool' object has no attribute 'get'"]
      (Normal tt).
Proof. vm_compute. reflexivity. Qed.

Example echo_http_run :
  demo_http_client echo_server "http://localhost:8000/mcp" =
  Run [Print (NL +:+ "=== MCP HTTP Client Demo ===");
       Print "Attempting to connect to: http://localhost:8000/mcp";
       StreamableHttpEnter "http://localhost:8000/mcp";
       ClientSessionEnter None;
       Print "Initializing HTTP connection...";
       Await Initialize;
       Print "✓ HTTP Connection initialized";
       Print (NL +:+ "--- Listing Tools (HTTP) ---");
       Await ListTools;
       Print "Tool: EchoTool - None";
       Print "Tool: a - first tool";
       Print (NL +:+ "--- Calling Tool via HTTP: EchoTool ---");
       Await (CallTool "EchoTool" {[ "message" := PyStr "Hello via HTTP!" ]});
       Print "Tool result: [EchoTool]";
       Print (NL +:+ "--- Listing Resources (HTTP) ---");
       Await ListResources;
       Print "No resources available";
       ClientSessionExit;
       TransportExit]
      (Normal tt).
Proof. vm_compute. reflexivity. Qed.

(** * Further properties of the flows *)

(** ** Scopes: what is launched, opened and released *)

(** Seen through a [g] that ignores prints and requests, the stdio flow is
    its two context managers. *)
Lemma demo_stdio_client_scopes {X} (g : event → option X) srv host port
    docker_image tool_name list_only :
  (∀ line, g (Print line) = None) → (∀ r, g (Await r) = None) →
  omap g (trace (demo_stdio_client srv host port docker_image tool_name
                   list_only)) =
  option_list (g (StdioClientEnter "docker"
                    (docker_args host port docker_image))) ++
  match transport_enter srv with
  | Some _ => []
  | None =>
      option_list (g (ClientSessionEnter (Some handle_sampling_message))) ++
      match session_enter srv with
      | Some _ => []
      | None => option_list (g ClientSessionExit)
      end ++
      option_list (g TransportExit)
  end.
Proof.
  intros g_print g_await. unfold demo_stdio_client.
  rewrite proj_async_def, proj_bind, proj_print, g_print, ending_print,
    silent_app.
  rewrite proj_try, !proj_async_with, !ending_async_with.
  rewrite (stdio_session_quiet g) by done.
  rewrite (handler_silent g)
    by (intros; by rewrite proj_print, g_print).
  rewrite app_nil_r. f_equal.
  destruct (transport_enter srv), (session_enter srv);
    by rewrite <- ?app_assoc.
Qed.

Lemma demo_stdio_client_launches srv host port docker_image tool_name
    list_only :
  launches (trace (demo_stdio_client srv host port docker_image tool_name
                     list_only)) =
  [("docker", docker_args host port docker_image)].
Proof.
  unfold launches. rewrite (demo_stdio_client_scopes launch_of) by done.
  by destruct (transport_enter srv), (session_enter srv).
Qed.

Lemma demo_stdio_client_http_opens srv host port docker_image tool_name
    list_only :
  http_opens (trace (demo_stdio_client srv host port docker_image tool_name
                       list_only)) = [].
Proof.
  unfold http_opens.
  rewrite (demo_stdio_client_scopes http_open_of) by done.
  by destruct (transport_enter srv), (session_enter srv).
Qed.

(** X1: whatever the server does and whatever the options are, the stdio
    flow launches exactly one subprocess, and it is
    [docker run -i --rm <image> STDIO TCP:<host>:<port>]. *)
Theorem stdio_launches_bridge_once srv host port docker_image tool_name
    list_only :
  launches (trace (demo_stdio_client srv host port docker_image tool_name
                     list_only)) =
  [("docker", ["run"; "-i"; "--rm"; docker_image; "STDIO";
               "TCP:" +:+ host +:+ ":" +:+ pretty port])].
Proof. apply demo_stdio_client_launches. Qed.

(** X2: in both flows every context manager that was entered is left
    again, the session before the transport, on every path: after a normal
    end, after the early [return] of list-only mode, and after an exception
    of any class raised anywhere inside. *)
Theorem scopes_are_released srv host port docker_image tool_name list_only
    server_url :
  exits (trace (demo_stdio_client srv host port docker_image tool_name
                  list_only)) = entered_scopes srv ∧
  exits (trace (demo_http_client srv server_url)) = entered_scopes srv.
Proof.
  unfold exits, entered_scopes. split.
  - rewrite (demo_stdio_client_scopes exit_of) by done.
    by destruct (transport_enter srv), (session_enter srv).
  - rewrite (demo_http_client_proj exit_of) by done.
    rewrite (http_session_quiet exit_of) by done.
    by destruct (transport_enter srv), (session_enter srv).
Qed.

(** ** The entry point without an HTTP URL *)

(** X13: without an HTTP URL option, or with an empty one, the entry
    point is the stdio flow on the parsed host, port, image, tool name and
    list-only flag: it launches the bridge once and opens no HTTP
    endpoint. *)
Theorem no_http_url_runs_only_stdio w args :
  opt_str_truthy (http_url args) = false →
  main w args =
    demo_stdio_client
      (stdio_peer w "docker"
         (docker_args (host args) (port args) (docker_image args)))
      (host args) (port args) (docker_image args) (tool args)
      (list_tools_flag args) ∧
  launches (trace (main w args)) =
    [("docker", docker_args (host args) (port args) (docker_image args))] ∧
  http_opens (trace (main w args)) = [].
Proof.
  intros Hfalsy. rewrite (main_stdio_run w args Hfalsy). unfold main_stdio.
  split; [done |].
  by rewrite demo_stdio_client_launches, demo_stdio_client_http_opens.
Qed.

Lemma no_http_url_runs_only_stdio_witness :
  launches (trace (main sample_world empty_http_url_flags)) =
    [("docker", ["run"; "-i"; "--rm"; "alpine/socat"; "STDIO";
                 "TCP:host.docker.internal:8811"])] ∧
  http_opens (trace (main sample_world empty_http_url_flags)) = [].
Proof.
  destruct (no_http_url_runs_only_stdio sample_world empty_http_url_flags
              eq_refl) as (_ & Hlaunches & Hopens).
  by split.
Defined.

(** ** Failures before and after the listings *)

Lemma trace_async_with {A} enter entered exit (body : M A) :
  trace (async_with enter entered exit body) =
  enter :: match entered with
           | Some _ => []
           | None => trace body ++ [exit]
           end.
Proof. by destruct entered. Qed.

(** The stdio flow around its session, once both context managers are
    entered. *)
Lemma demo_stdio_client_trace srv host port docker_image tool_name
    list_only :
  transport_enter srv = None → session_enter srv = None →
  trace (demo_stdio_client srv host port docker_image tool_name list_only) =
    Print "=== MCP Stdio Client Demo ==="
    :: StdioClientEnter "docker" (docker_args host port docker_image)
    :: ClientSessionEnter (Some handle_sampling_message)
    :: trace (stdio_session srv tool_name list_only) ++
       [ClientSessionExit; TransportExit] ++
       match ending (stdio_session srv tool_name list_only) with
       | Raised e =>
           if is_Exception e
           then [Print ("Stdio client error: " +:+ exn_msg e)]
           else []
       | _ => []
       end.
Proof.
  intros Ht Hs. unfold demo_stdio_client.
  rewrite trace_async_def, trace_bind, ending_print, trace_try.
  rewrite !ending_async_with, !trace_async_with, Ht, Hs.
  cbn [trace print emit app]. rewrite <- !app_assoc. do 3 f_equal.
  cbn [app]. do 3 f_equal.
  destruct (ending _) as [[] | e |]; try done. cbn [matching_clause].
  by destruct (is_Exception e).
Qed.

(** X4: when the bridge cannot be started (entering the stdio transport
    raises an [Exception]), nothing is requested from any server: the flow
    prints its banner, tries the launch, reports
    [Stdio client error: <message>] and ends normally. *)
Theorem stdio_connection_failure srv host port docker_image tool_name
    list_only e :
  transport_enter srv = Some e → is_Exception e →
  demo_stdio_client srv host port docker_image tool_name list_only =
  Run [Print "=== MCP Stdio Client Demo ===";
       StdioClientEnter "docker" (docker_args host port docker_image);
       Print ("Stdio client error: " +:+ exn_msg e)]
      (Normal tt).
Proof.
  intros Ht He. unfold demo_stdio_client, async_def, try_except, async_with.
  rewrite Ht. cbn. destruct (is_Exception e); [done | by destruct He].
Qed.

Lemma stdio_connection_failure_witness :
  demo_stdio_client dockerless_server "host" 8811 "img" (Some "a") false =
  Run [Print "=== MCP Stdio Client Demo ===";
       StdioClientEnter "docker"
         ["run"; "-i"; "--rm"; "img"; "STDIO"; "TCP:host:8811"];
       Print "Stdio client error: No such file: docker"]
      (Normal tt).
Proof.
  exact (stdio_connection_failure dockerless_server "host" 8811 "img"
           (Some "a") false (Exn OtherException "No such file: docker")
           eq_refl I).
Defined.

Lemma demo_stdio_client_entered_ending srv host port docker_image tool_name
    list_only :
  transport_enter srv = None → session_enter srv = None →
  ending (demo_stdio_client srv host port docker_image tool_name list_only) =
  match ending (stdio_session srv tool_name list_only) with
  | Raised e => if is_Exception e then Normal tt else Raised e
  | _ => Normal tt
  end.
Proof.
  intros Ht Hs. unfold demo_stdio_client.
  rewrite ending_async_def, ending_bind, ending_print, ending_try,
    !ending_async_with, Ht, Hs.
  destruct (ending _) as [[] | e |]; try done. cbn [matching_clause].
  by destruct (is_Exception e).
Qed.

Lemma run_eq {A} (m : M A) t o : trace m = t → ending m = o → m = Run t o.
Proof. destruct m. simpl. by intros -> ->. Qed.

(** X5: when the handshake raises an [Exception], no listing and no tool
    call is attempted: [initialize] is the only request, the session and
    the transport are left, and the failure is reported by the outermost
    handler; the flow ends normally. *)
Theorem stdio_handshake_failure srv host port docker_image tool_name
    list_only e :
  transport_enter srv = None → session_enter srv = None →
  initialize srv = Some e → is_Exception e →
  demo_stdio_client srv host port docker_image tool_name list_only =
  Run [Print "=== MCP Stdio Client Demo ===";
       StdioClientEnter "docker" (docker_args host port docker_image);
       ClientSessionEnter (Some handle_sampling_message);
       Print "Initializing connection...";
       Await Initialize;
       ClientSessionExit;
       TransportExit;
       Print ("Stdio client error: " +:+ exn_msg e)]
      (Normal tt).
Proof.
  intros Ht Hs Hi He.
  assert (stdio_session srv tool_name list_only =
          Run [Print "Initializing connection..."; Await Initialize]
              (Raised e)) as Hsession.
  { unfold stdio_session, await. rewrite Hi. reflexivity. }
  apply run_eq.
  - rewrite demo_stdio_client_trace, Hsession by done. cbn.
    by destruct (is_Exception e).
  - rewrite demo_stdio_client_entered_ending, Hsession by done. cbn.
    by destruct (is_Exception e).
Qed.

Lemma stdio_handshake_failure_witness :
  demo_stdio_client timing_out_server "host" 8811 "img" None true =
  Run [Print "=== MCP Stdio Client Demo ===";
       StdioClientEnter "docker"
         ["run"; "-i"; "--rm"; "img"; "STDIO"; "TCP:host:8811"];
       ClientSessionEnter (Some handle_sampling_message);
       Print "Initializing connection...";
       Await Initialize;
       ClientSessionExit;
       TransportExit;
       Print "Stdio client error: Timed out"]
      (Normal tt).
Proof.
  exact (stdio_handshake_failure timing_out_server "host" 8811 "img" None
           true (Exn OtherException "Timed out") eq_refl eq_refl eq_refl I).
Defined.

(** ** The order of the requests, whatever fails *)

Lemma stdio_session_proj_prefix {X} (g : event → option X) srv tool_name
    list_only :
  (∀ line, g (Print line) = None) →
  omap g (trace (stdio_session srv tool_name list_only)) `prefix_of`
  option_list (g (Await Initialize)) ++
  option_list (g (Await ListPrompts)) ++
  option_list (g (Await ListResources)) ++
  option_list (g (Await ListTools)) ++
  omap g (trace (stdio_after_listings srv tool_name list_only
                   (listed (list_tools srv)))).
Proof.
  intros g_print. unfold stdio_session.
  rewrite proj_bind, proj_print, g_print, ending_print, silent_app.
  rewrite proj_bind, proj_await, ending_await.
  apply prefix_app.
  destruct (initialize srv); cbn [unit_answer]; [apply prefix_nil |].
  rewrite proj_bind, proj_print, g_print, ending_print, silent_app.
  rewrite proj_bind, (stdio_list_prompts_proj g g_print).
  apply prefix_app. destruct (ending _); try apply prefix_nil.
  rewrite proj_bind, (stdio_list_resources_proj g g_print).
  apply prefix_app. destruct (ending _); try apply prefix_nil.
  rewrite proj_bind, (stdio_list_tools_proj g g_print).
  apply prefix_app. rewrite stdio_list_tools_ending.
  unfold stdio_after_listings, guarded, listed.
  destruct (list_tools srv) as [tools | e]; [done |].
  destruct (is_Exception e); [done | apply prefix_nil].
Qed.

(** X6: whatever the server answers and whatever fails, the requests of
    the stdio flow are an initial part of: the handshake, the prompt
    listing, the resource listing, the tool listing, and the one planned
    tool call (none in list-only mode).  Nothing is requested before the
    handshake, no tool is called before the listings, and at most one tool
    call is made. *)
Theorem stdio_requests_in_order srv host port docker_image tool_name
    list_only :
  requests (trace (demo_stdio_client srv host port docker_image tool_name
                     list_only))
  `prefix_of`
  [Initialize; ListPrompts; ListResources; ListTools] ++
  ((λ call, CallTool call.1 call.2) <$>
   (if list_only then []
    else planned_call tool_name (listed (list_tools srv)))).
Proof.
  unfold requests at 1.
  rewrite (demo_stdio_client_proj request_of) by done.
  destruct (transport_enter srv); [apply prefix_nil |].
  destruct (session_enter srv); [apply prefix_nil |].
  rewrite <- (stdio_after_listings_requests srv).
  by apply (stdio_session_proj_prefix request_of).
Qed.

(** ** The outcome of the tool call *)

Lemma planned_call_inv tool_name tools name tool_args :
  planned_call tool_name tools = [(name, tool_args)] →
  select_tool_name tool_name tools = Some name ∧ str_truthy name = true ∧
  synthesize_tool_args tools name = Ok tool_args.
Proof.
  unfold planned_call.
  destruct (select_tool_name tool_name tools) as [selected |]; [| done].
  destruct (str_truthy selected) eqn:E; [| done].
  destruct (synthesize_tool_args tools selected) eqn:E'; [| done].
  by intros [= -> ->].
Qed.

Lemma stdio_call_selected_trace srv tool_name tools name tool_args :
  planned_call tool_name tools = [(name, tool_args)] →
  trace (stdio_call_selected srv tool_name tools) =
  Print (NL +:+ "--- Calling Tool: " +:+ name +:+ " ---")
  :: Await (CallTool name tool_args)
  :: match call_tool srv name tool_args with
     | Ok result => [Print ("Tool result: " +:+ result)]
     | Err e =>
         if is_Exception e
         then [Print ("Error calling tool '" +:+ name +:+ "': "
                      +:+ exn_msg e)]
         else []
     end.
Proof.
  intros (Hselect & Htruthy & Hargs)%planned_call_inv.
  unfold stdio_call_selected. rewrite Hselect, Htruthy, Hargs.
  unfold try_except, await. cbn.
  destruct (call_tool srv name tool_args) as [result | e]; cbn; [done |].
  by destruct (is_Exception e).
Qed.

Lemma segment_stdio_after_listings s srv tool_name list_only :
  initialize srv = None → listings_caught srv →
  segment s (trace (stdio_after_listings srv tool_name list_only
                      (listed (list_tools srv)))) →
  segment s (trace (stdio_session srv tool_name list_only)).
Proof.
  intros Hinit Hcaught Hs.
  destruct (listings_caught_fields srv Hcaught) as (Hp & Hr & Ht).
  assert (ending (await Initialize (unit_answer (initialize srv)))
          = Normal tt) as Hawait by (by rewrite Hinit).
  assert (ending (stdio_list_prompts srv) = Normal tt) as Hprompts
    by (by rewrite stdio_list_prompts_ending, caught_ending).
  assert (ending (stdio_list_resources srv) = Normal tt) as Hresources
    by (by rewrite stdio_list_resources_ending, caught_ending).
  assert (ending (stdio_list_tools srv) = Normal (listed (list_tools srv)))
    as Htools.
  { rewrite stdio_list_tools_ending, guarded_caught by done.
    by destruct (list_tools srv). }
  unfold stdio_session.
  eapply segment_bind_r; [reflexivity |].
  eapply segment_bind_r; [exact Hawait |].
  eapply segment_bind_r; [reflexivity |].
  eapply segment_bind_r; [exact Hprompts |].
  eapply segment_bind_r; [exact Hresources |].
  eapply segment_bind_r; [exact Htools |]. exact Hs.
Qed.

(** X7: the outcome of the tool call is reported right after the call and
    never raised: a result is printed as [Tool result: ...], an
    [Exception] as [Error calling tool '<name>': <message>], and in both
    cases the flow ends normally. *)
Theorem tool_call_outcome_is_reported srv host port docker_image tool_name
    name tool_args :
  established srv → listings_caught srv →
  planned_call tool_name (listed (list_tools srv)) = [(name, tool_args)] →
  let run := demo_stdio_client srv host port docker_image tool_name false in
  (∀ result, call_tool srv name tool_args = Ok result →
     segment [Await (CallTool name tool_args);
              Print ("Tool result: " +:+ result)] (trace run) ∧
     ending run = Normal tt) ∧
  (∀ e, call_tool srv name tool_args = Err e → is_Exception e →
     segment [Await (CallTool name tool_args);
              Print ("Error calling tool '" +:+ name +:+ "': "
                     +:+ exn_msg e)] (trace run) ∧
     ending run = Normal tt).
Proof.
  intros Hup Hcaught Hplanned run. subst run.
  destruct (established_fields srv Hup) as (_ & _ & Hinit).
  pose proof (stdio_call_selected_trace srv tool_name _ _ _ Hplanned)
    as Htrace.
  destruct (planned_call_inv _ _ _ _ Hplanned)
    as (Hselect & Htruthy & Hargs).
  assert (∀ s, segment s (trace (stdio_call_selected srv tool_name
                                   (listed (list_tools srv)))) →
               segment s (trace (demo_stdio_client srv host port
                                   docker_image tool_name false)))
    as Hlift.
  { intros s Hs. apply segment_demo_stdio_client; [done |].
    by apply segment_stdio_after_listings. }
  split.
  - intros result Hcall. rewrite Hcall in Htrace. split.
    + apply Hlift. rewrite Htrace. by apply segment_cons, segment_refl.
    + rewrite demo_stdio_client_ending by done.
      unfold stdio_after_listings.
      by rewrite stdio_call_selected_ending, Hselect, Htruthy, Hargs, Hcall.
  - intros e Hcall He. rewrite Hcall in Htrace.
    destruct (is_Exception e) eqn:E; [| done]. split.
    + apply Hlift. rewrite Htrace. by apply segment_cons, segment_refl.
    + rewrite demo_stdio_client_ending by done.
      unfold stdio_after_listings.
      rewrite stdio_call_selected_ending, Hselect, Htruthy, Hargs, Hcall.
      simpl. by rewrite E.
Qed.

Lemma tool_call_outcome_is_reported_witness :
  (segment [Await (CallTool "b" ∅); Print "Tool result: [b]"]
     (trace (demo_stdio_client bare_server "host" 8811 "img" (Some "b")
               false)) ∧
   ending (demo_stdio_client bare_server "host" 8811 "img" (Some "b") false)
     = Normal tt) ∧
  (segment [Await (CallTool "b" ∅);
            Print "Error calling tool 'b': Tool execution failed"]
     (trace (demo_stdio_client failing_call_server "host" 8811 "img" None
               false)) ∧
   ending (demo_stdio_client failing_call_server "host" 8811 "img" None
             false) = Normal tt).
Proof.
  destruct (tool_call_outcome_is_reported bare_server "host" 8811 "img"
              (Some "b") "b" ∅ I I eq_refl) as [Hok _].
  destruct (tool_call_outcome_is_reported failing_call_server "host" 8811
              "img" None "b" ∅ I I eq_refl) as [_ Herr].
  split.
  - exact (Hok "[b]" eq_refl).
  - exact (Herr (Exn OtherException "Tool execution failed") eq_refl I).
Defined.

(** ** When synthesizing the arguments raises *)

Lemma synthesize_properties_error properties e :
  synthesize_properties properties = Err e →
  exn_cls e = AttributeError ∧
  ∃ prop_name prop_def,
    properties !! prop_name = Some prop_def ∧ is_dict prop_def = false.
Proof.
  intros Herr.
  destruct (decide (map_Forall (λ _ v, is_dict v) properties)) as [H | H].
  - destruct (synthesize_properties_lookup properties H) as (a & Ha & _).
    congruence.
  - destruct (synthesize_properties_raises properties H) as (e' & He' & Hcls).
    split; [congruence |].
    apply map_not_Forall in H as (k & v & Hk & Hv); [| apply _].
    exists k, v. split; [done |]. by destruct (is_dict v).
Qed.

Lemma synthesis_raises_schema_class schema e :
  synthesize_schema schema = Err e → exn_cls e = AttributeError.
Proof.
  unfold synthesize_schema.
  destruct (schema !! "properties") as [v |]; [| done].
  destruct v; try by intros [= <-].
  by intros (? & _)%synthesize_properties_error.
Qed.

(** X9: synthesizing arguments from a schema raises exactly when its
    ["properties"] entry is not a mapping, or is a mapping in which some
    property's definition is not a mapping (a boolean schema, a string,
    [null]); what it raises is always an [AttributeError]. *)
Theorem synthesis_raises_iff (schema : gmap string pyval) :
  ((∃ e, synthesize_schema schema = Err e) ↔
   ∃ v, schema !! "properties" = Some v ∧
        (is_dict v = false ∨
         ∃ properties prop_name prop_def,
           v = PyDict properties ∧
           properties !! prop_name = Some prop_def ∧
           is_dict prop_def = false)) ∧
  ∀ e, synthesize_schema schema = Err e → exn_cls e = AttributeError.
Proof.
  split; [unfold synthesize_schema; split |].
  - intros [e He]. destruct (schema !! "properties") as [v |]; [| done].
    exists v. split; [done |].
    destruct v as [| | | | | | properties]; try by left.
    right. apply synthesize_properties_error in He
      as (_ & prop_name & prop_def & ? & ?).
    by exists properties, prop_name, prop_def.
  - intros (v & -> & [Hv | (properties & prop_name & prop_def & -> & Hp
                              & Hd)]).
    + destruct v; first [done | by eexists].
    + destruct (synthesize_properties_raises properties) as (e & He & _);
        [| by exists e].
      intros Hall. apply Hall in Hp. simpl in Hp. by rewrite Hd in Hp.
  - apply synthesis_raises_schema_class.
Qed.

Lemma synthesize_tool_args_error tools name e :
  synthesize_tool_args tools name = Err e → exn_cls e = AttributeError.
Proof.
  unfold synthesize_tool_args.
  destruct tools as [[| t0 ts] |]; try done.
  destruct (find_tool _ _) as [selected |]; [| done].
  destruct (opt_dict_truthy _); [| done].
  destruct (Tool.inputSchema selected) as [schema |]; [| done].
  apply synthesis_raises_schema_class.
Qed.

(** The session's trace ends with what follows the listings. *)
Lemma stdio_session_trace_split srv tool_name list_only :
  initialize srv = None → listings_caught srv →
  ∃ before,
    trace (stdio_session srv tool_name list_only) =
    before ++ trace (stdio_after_listings srv tool_name list_only
                       (listed (list_tools srv))).
Proof.
  intros Hinit Hcaught.
  destruct (listings_caught_fields srv Hcaught) as (Hp & Hr & Ht).
  unfold stdio_session.
  rewrite trace_bind, ending_print, trace_bind, ending_await, Hinit.
  cbn [unit_answer].
  rewrite trace_bind, ending_print, trace_bind, stdio_list_prompts_ending,
    caught_ending by done.
  rewrite trace_bind, stdio_list_resources_ending, caught_ending by done.
  rewrite trace_bind, stdio_list_tools_ending, guarded_caught by done.
  rewrite !app_assoc. eexists. f_equal.
Qed.

(** X8: when synthesizing the arguments of the selected tool raises (a
    malformed schema), no tool call is made at all: right after the
    [--- Calling Tool: <name> ---] line the session and the transport are
    left and the outermost handler reports an [AttributeError] with
    [Stdio client error: <its message>]; the flow ends normally. Which
    message it is depends on the definition the loop meets first and is
    left open. *)
Theorem malformed_schema_aborts_call srv host port docker_image tool_name
    name :
  established srv → listings_caught srv →
  select_tool_name tool_name (listed (list_tools srv)) = Some name →
  name ≠ "" →
  (∃ e, synthesize_tool_args (listed (list_tools srv)) name = Err e) →
  let run := demo_stdio_client srv host port docker_image tool_name false in
  tool_calls (trace run) = [] ∧
  ending run = Normal tt ∧
  ∃ before raised,
    exn_cls raised = AttributeError ∧
    trace run =
    before ++ [Print (NL +:+ "--- Calling Tool: " +:+ name +:+ " ---");
               ClientSessionExit;
               TransportExit;
               Print ("Stdio client error: " +:+ exn_msg raised)].
Proof.
  intros Hup Hcaught Hselect Hname [e Herr] run. subst run.
  destruct (established_fields srv Hup) as (Ht & Hs & Hinit).
  pose proof (synthesize_tool_args_error _ _ _ Herr) as Hcls.
  assert (is_Exception e = true) as He
    by (unfold is_Exception; by rewrite Hcls).
  assert (stdio_after_listings srv tool_name false (listed (list_tools srv))
          = Run [Print (NL +:+ "--- Calling Tool: " +:+ name +:+ " ---")]
                (Raised e)) as Hafter.
  { unfold stdio_after_listings, stdio_call_selected.
    rewrite Hselect, str_truthy_ne, Herr by done. reflexivity. }
  split; [| split].
  - rewrite demo_stdio_client_tool_calls by done. unfold planned_call.
    by rewrite Hselect, str_truthy_ne, Herr.
  - rewrite demo_stdio_client_ending, Hafter by done. simpl. by rewrite He.
  - destruct (stdio_session_trace_split srv tool_name false Hinit Hcaught)
      as [before Hsplit].
    rewrite demo_stdio_client_trace, stdio_session_ending by done.
    rewrite Hsplit, Hafter. cbn [trace ending]. rewrite He.
    exists (Print "=== MCP Stdio Client Demo ==="
            :: StdioClientEnter "docker" (docker_args host port docker_image)
            :: ClientSessionEnter (Some handle_sampling_message)
            :: before), e.
    split; [done |]. cbn [app]. do 3 f_equal.
    by rewrite <- app_assoc.
Qed.

Lemma malformed_schema_aborts_call_witness :
  tool_calls (trace (demo_stdio_client malformed_server "host" 8811 "img"
                       None false)) = [] ∧
  ending (demo_stdio_client malformed_server "host" 8811 "img" None false)
    = Normal tt.
Proof.
  assert ("bad" ≠ "") as Hne by discriminate.
  destruct (malformed_schema_aborts_call malformed_server "host" 8811 "img"
              None "bad" I I eq_refl Hne
              (ex_intro _ (attribute_error (PyBool true) "get") eq_refl))
    as (Hcalls & Hending & _).
  by split.
Defined.

(** ** What gets out of a flow *)

Lemma guarded_raised {A B} (answer : result A) (ok : A → B) failed e :
  guarded answer ok failed = Raised e →
  answer = Err e ∧ is_Exception e = false.
Proof.
  destruct answer as [a | e']; simpl; [done |].
  destruct (is_Exception e') eqn:E; [done |]. by intros [= ->].
Qed.

Lemma guarded_not_returned {A B} (answer : result A) (ok : A → B) failed :
  guarded answer ok failed ≠ Returned.
Proof. destruct answer as [a | e]; simpl; [done |]. by destruct (is_Exception e). Qed.

(** What the argument synthesis raises is an [Exception]. *)
Lemma synthesize_tool_args_caught tools name e :
  synthesize_tool_args tools name = Err e → is_Exception e = true.
Proof.
  intros Hcls%synthesize_tool_args_error. unfold is_Exception.
  by rewrite Hcls.
Qed.

(** Inside the session of the stdio flow, what is raised and is not an
    [Exception] was raised by the server. *)
Lemma stdio_call_selected_raised srv tool_name tools e :
  ending (stdio_call_selected srv tool_name tools) = Raised e →
  is_Exception e = false → raised_by srv e.
Proof.
  rewrite stdio_call_selected_ending.
  destruct (select_tool_name tool_name tools) as [name |]; [| done].
  destruct (str_truthy name); [| done].
  destruct (synthesize_tool_args tools name) as [tool_args | e'] eqn:Hargs.
  - intros [Hcall _]%guarded_raised _. do 6 right. by exists name, tool_args.
  - intros [= ->] He. apply synthesize_tool_args_caught in Hargs. congruence.
Qed.

Lemma stdio_session_raised srv tool_name list_only e :
  ending (stdio_session srv tool_name list_only) = Raised e →
  is_Exception e = false → raised_by srv e.
Proof.
  unfold stdio_session.
  rewrite ending_bind, ending_print, ending_bind, ending_await.
  destruct (initialize srv) as [e0 |] eqn:Hinit; cbn [unit_answer].
  { intros [= ->] _. unfold raised_by. tauto. }
  rewrite ending_bind, ending_print, ending_bind, stdio_list_prompts_ending.
  destruct (guarded (list_prompts srv) _ _) as [[] | e1 |] eqn:Hprompts;
    [| intros [= ->] _; apply guarded_raised in Hprompts as [? _];
       unfold raised_by; tauto
     | done].
  rewrite ending_bind, stdio_list_resources_ending.
  destruct (guarded (list_resources srv) _ _) as [[] | e2 |] eqn:Hresources;
    [| intros [= ->] _; apply guarded_raised in Hresources as [? _];
       unfold raised_by; tauto
     | done].
  rewrite ending_bind, stdio_list_tools_ending.
  destruct (guarded (list_tools srv) _ _) as [tools | e3 |] eqn:Htools;
    [| intros [= ->] _; apply guarded_raised in Htools as [? _];
       unfold raised_by; tauto
     | done].
  destruct list_only; [done |]. apply stdio_call_selected_raised.
Qed.

Lemma demo_stdio_client_contained srv host port docker_image tool_name
    list_only :
  contained srv (ending (demo_stdio_client srv host port docker_image
                           tool_name list_only)).
Proof.
  unfold demo_stdio_client.
  rewrite ending_async_def, ending_bind, ending_print, ending_try,
    !ending_async_with.
  destruct (transport_enter srv) as [e1 |] eqn:Htransport.
  { cbn [matching_clause]. destruct (is_Exception e1) eqn:E; [done |].
    split; [done |]. unfold raised_by. tauto. }
  destruct (session_enter srv) as [e2 |] eqn:Hsession.
  { cbn [matching_clause]. destruct (is_Exception e2) eqn:E; [done |].
    split; [done |]. unfold raised_by. tauto. }
  destruct (ending (stdio_session srv tool_name list_only))
    as [[] | e |] eqn:Hbody; [done | | done].
  cbn [matching_clause]. destruct (is_Exception e) eqn:E; [done |].
  split; [done |]. by eapply stdio_session_raised.
Qed.

(** The HTTP flow synthesizes nothing: whatever its [try] block raises was
    raised by the server. *)
Lemma http_try_raised_by srv server_url e :
  ending (http_try srv server_url) = Raised e → raised_by srv e.
Proof.
  unfold http_try. rewrite !ending_async_with.
  destruct (transport_enter srv) as [e1 |] eqn:Htransport;
    [intros [= ->]; unfold raised_by; tauto |].
  destruct (session_enter srv) as [e2 |] eqn:Hsession;
    [intros [= ->]; unfold raised_by; tauto |].
  unfold http_session.
  rewrite ending_bind, ending_print, ending_bind, ending_await.
  destruct (initialize srv) as [e3 |] eqn:Hinit;
    [intros [= ->]; unfold raised_by; tauto |].
  cbn [unit_answer].
  rewrite ending_bind, ending_print, ending_bind, http_tools_ending,
    http_resources_ending.
  assert (guarded (list_resources srv) (λ _, tt) tt = Raised e →
          raised_by srv e) as Hresources.
  { intros [? _]%guarded_raised. unfold raised_by. tauto. }
  destruct (list_tools srv) as [[| first rest] | e'] eqn:Htools.
  - exact Hresources.
  - destruct (guarded (call_tool srv _ _) _ _) as [[] | e'' |] eqn:Hcall;
      [exact Hresources | | done].
    intros [= ->]. apply guarded_raised in Hcall as [Hcall _].
    do 6 right. eauto.
  - destruct (is_Exception e'); [exact Hresources |].
    intros [= ->]. unfold raised_by. tauto.
Qed.

Lemma demo_http_client_contained srv server_url :
  contained srv (ending (demo_http_client srv server_url)).
Proof.
  unfold demo_http_client.
  rewrite ending_async_def, !ending_bind, !ending_print, ending_try.
  destruct (ending (http_try srv server_url)) as [[] | e |] eqn:Htry;
    [done | | done].
  cbn [matching_clause]. destruct (is_ConnectionError e).
  { by rewrite (proj1 (http_on_connection_error_prints server_url e)). }
  destruct (is_Exception e) eqn:E.
  { by rewrite (proj1 (http_on_exception_prints server_url e)). }
  split; [done |]. by eapply http_try_raised_by.
Qed.

Lemma main_contained w args :
  contained (main_peer w args) (ending (main w args)).
Proof.
  unfold main, main_peer. rewrite ending_async_def.
  pose proof (demo_stdio_client_contained
                (stdio_peer w "docker"
                   (docker_args (host args) (port args) (docker_image args)))
                (host args) (port args) (docker_image args) (tool args)
                (list_tools_flag args)) as Hstdio.
  fold (main_stdio w args) in Hstdio.
  destruct (http_url args) as [url |]; cbn [opt_str_truthy default].
  - destruct (str_truthy url).
    + rewrite ending_bind.
      pose proof (demo_http_client_contained (http_peer w url) url) as Hhttp.
      by destruct (ending (demo_http_client _ _)).
    + by destruct (ending (main_stdio w args)).
  - by destruct (ending (main_stdio w args)).
Qed.

(** X3: no [Exception] raised by the transport, by the session, by a
    request or by the argument synthesis leaves either flow or the entry
    point.  Each of them ends normally, or with an exception that is not an
    [Exception] (a [KeyboardInterrupt], a cancellation) and that entering
    the transport or the session, the handshake, a listing or the tool call
    raised; a [return] is never left pending.  What the argument synthesis
    raises is always an [Exception], so it is always taken by the outermost
    handler of the stdio flow.  Writing to the console is taken not to
    fail: the statement says nothing of an exception raised by a [print]
    or by formatting its line, outside the [try] blocks or inside a
    handler. *)
Theorem raised_exceptions_are_contained w args srv host port docker_image
    tool_name list_only server_url :
  contained srv (ending (demo_stdio_client srv host port docker_image
                           tool_name list_only)) ∧
  contained srv (ending (demo_http_client srv server_url)) ∧
  contained (main_peer w args) (ending (main w args)) ∧
  ∀ tools name e,
    synthesize_tool_args tools name = Err e → is_Exception e = true.
Proof.
  split; [apply demo_stdio_client_contained |].
  split; [apply demo_http_client_contained |].
  split; [apply main_contained |].
  apply synthesize_tool_args_caught.
Qed.

(** An interrupt from the keyboard during the tool listing is what the
    handlers let through; the context managers are left on its way out. *)
Example keyboard_interrupt_leaves_the_flow :
  demo_stdio_client interrupted_server "host" 8811 "img" None false =
  Run [Print "=== MCP Stdio Client Demo ===";
       StdioClientEnter "docker"
         ["run"; "-i"; "--rm"; "img"; "STDIO"; "TCP:host:8811"];
       ClientSessionEnter (Some handle_sampling_message);
       Print "Initializing connection...";
       Await Initialize;
       Print "✓ Connection initialized";
       Print (NL +:+ "--- Listing Prompts ---");
       Await ListPrompts;
       Print "No prompts available";
       Print (NL +:+ "--- Listing Resources ---");
       Await ListResources;
       Print "No resources available";
       Print (NL +:+ "--- Listing Tools ---");
       Await ListTools;
       ClientSessionExit;
       TransportExit]
      (Raised (Exn BaseExceptionOnly "KeyboardInterrupt")).
Proof. vm_compute. reflexivity. Qed.

(** ** The order of the properties *)

Lemma synthesize_items_spec items tool_args :
  match synthesize_items items tool_args with
  | Ok _ => Forall (λ item, is_dict item.2) items
  | Err raised =>
      ∃ before prop_name prop_def after,
        items = before ++ (prop_name, prop_def) :: after ∧
        Forall (λ item, is_dict item.2) before ∧
        is_dict prop_def = false ∧
        raised = attribute_error prop_def "get"
  end.
Proof.
  revert tool_args.
  induction items as [| [prop_name prop_def] rest IH]; intros tool_args;
    [by constructor |].
  cbn [synthesize_items].
  destruct (is_dict prop_def) eqn:Hdef.
  - destruct prop_def as [| | | | | | d]; try done.
    rewrite synthesize_property_dict.
    match goal with |- context [synthesize_items rest ?a] =>
      specialize (IH a); destruct (synthesize_items rest a) as [r | raised]
    end.
    + by constructor.
    + destruct IH as (before & k & v & after & -> & Hbefore & Hv & ->).
      exists ((prop_name, PyDict d) :: before), k, v, after.
      repeat split; [| done]. by constructor.
  - rewrite synthesize_property_not_dict by (rewrite Hdef; intros []).
    exists [], prop_name, prop_def, rest. repeat split; [| done].
    constructor.
Qed.

Lemma synthesize_items_lookup items tool_args :
  Forall (λ item, is_dict item.2) items → NoDup items.*1 →
  ∃ tool_args',
    synthesize_items items tool_args = Ok tool_args' ∧
    ∀ k, tool_args' !! k =
         match (list_to_map items : gmap string pyval) !! k ≫= entry_of with
         | Some v => Some v
         | None => tool_args !! k
         end.
Proof.
  revert tool_args.
  induction items as [| [prop_name prop_def] rest IH];
    intros tool_args Hdefs Hnodup.
  { exists tool_args. split; [done |]. intros k.
    by rewrite list_to_map_nil, lookup_empty. }
  apply Forall_cons in Hdefs as [Hdef Hdefs].
  rewrite fmap_cons in Hnodup. apply NoDup_cons in Hnodup as [Hfresh Hnodup].
  destruct prop_def as [| | | | | | d]; try done.
  cbn [synthesize_items]. rewrite synthesize_property_dict.
  match goal with |- context [synthesize_items rest ?a] =>
    destruct (IH a Hdefs Hnodup) as (tool_args' & -> & Hlookup)
  end.
  exists tool_args'. split; [done |]. intros k. rewrite Hlookup.
  rewrite list_to_map_cons.
  destruct (decide (prop_name = k)) as [<- | Hne].
  - rewrite lookup_insert_eq. cbn [mbind option_bind entry_of].
    rewrite (not_elem_of_list_to_map_1 rest prop_name) by done.
    cbn [mbind option_bind].
    destruct (example_for (dict_get d "type")) as [v |]; [| done].
    by rewrite lookup_insert_eq.
  - rewrite lookup_insert_ne by done.
    destruct (list_to_map rest !! k ≫= entry_of); [done |].
    destruct (example_for (dict_get d "type")) as [v |]; [| done].
    by rewrite lookup_insert_ne.
Qed.

(** X14: the loop of lines 125-131, run over the items of the dict in the
    order the dict yields them, and the fold over the same dict held as a
    finite map agree.  For items with distinct keys (the items of a dict):
    when the loop ends, the fold gives the same mapping; when the loop
    raises, it raises the [AttributeError] of the first definition, in the
    dict's order, that is not a mapping, and the fold raises an
    [AttributeError] too. *)
Theorem synthesis_is_order_independent (items : list (string * pyval)) :
  NoDup items.*1 →
  match synthesize_items items ∅ with
  | Ok tool_args => synthesize_properties (list_to_map items) = Ok tool_args
  | Err raised =>
      exn_cls raised = AttributeError ∧
      (∃ before prop_name prop_def after,
         items = before ++ (prop_name, prop_def) :: after ∧
         Forall (λ item, is_dict item.2) before ∧
         is_dict prop_def = false ∧
         raised = attribute_error prop_def "get") ∧
      ∃ raised',
        synthesize_properties (list_to_map items) = Err raised' ∧
        exn_cls raised' = AttributeError
  end.
Proof.
  intros Hnodup.
  pose proof (synthesize_items_spec items ∅) as Hspec.
  destruct (synthesize_items items ∅) as [tool_args | raised] eqn:Hloop.
  - destruct (synthesize_items_lookup items ∅ Hspec Hnodup)
      as (tool_args' & Hloop' & Hlookup).
    assert (tool_args' = tool_args) as -> by congruence.
    assert (map_Forall (λ _ v, is_dict v)
              (list_to_map items : gmap string pyval)) as Hdefs.
    { intros k v Hk%elem_of_list_to_map_2.
      rewrite Forall_forall in Hspec. exact (Hspec (k, v) Hk). }
    destruct (synthesize_properties_lookup _ Hdefs)
      as (folded & -> & Hfolded).
    f_equal. apply map_eq. intros k. rewrite Hlookup, Hfolded, lookup_empty.
    change (λ v : pyval, match v with
                         | PyDict d => example_for (dict_get d "type")
                         | _ => None
                         end) with entry_of.
    by destruct (list_to_map items !! k ≫= entry_of).
  - destruct Hspec as (before & k & v & after & -> & Hbefore & Hv & ->).
    split; [done |]. split; [by exists before, k, v, after |].
    apply synthesize_properties_raises. intros Hall.
    assert ((list_to_map (before ++ (k, v) :: after) : gmap string pyval)
              !! k = Some v) as Hk.
    { apply elem_of_list_to_map_1; [done |]. set_solver. }
    apply Hall in Hk. simpl in Hk. by rewrite Hv in Hk.
Qed.

Lemma synthesis_is_order_independent_witness :
  synthesize_properties (list_to_map sample_items) =
  Ok {[ "city" := PyStr "example"; "count" := PyInt 42;
        "ratio" := PyFloat 3.14%float ]}.
Proof.
  assert (NoDup sample_items.*1) as Hnodup by compute_done.
  pose proof (synthesis_is_order_independent sample_items Hnodup) as Hsame.
  vm_compute in Hsame. vm_compute. exact Hsame.
Defined.

(** The two orders of [{"s": {"type": "string"}, "x": true}]: the loop
    raises the same [AttributeError] whether it meets ["x"] after ["s"] or
    before it. *)
Example half_malformed_in_both_orders :
  synthesize_items half_malformed_items ∅ =
    Err (Exn AttributeError "'bool' object has no attribute 'get'") ∧
  synthesize_items half_malformed_items_reversed ∅ =
    Err (Exn AttributeError "'bool' object has no attribute 'get'") ∧
  list_to_map half_malformed_items = half_malformed_properties ∧
  list_to_map half_malformed_items_reversed = half_malformed_properties.
Proof. repeat split; vm_compute; reflexivity. Qed.

(** ** Which schema the arguments come from *)

Lemma find_tool_first before selected after :
  (∀ t, t ∈ before → Tool.name t ≠ Tool.name selected) →
  find_tool (before ++ selected :: after) (Tool.name selected)
  = Some selected.
Proof.
  intros Hbefore. unfold find_tool.
  induction before as [| t before IH]; simpl.
  - by rewrite bool_decide_eq_true_2.
  - rewrite bool_decide_eq_false_2 by (apply Hbefore; left).
    apply IH. intros t' Ht'. apply Hbefore. by right.
Qed.

(** X10: the call to an explicitly named tool carries the arguments
    synthesized from the schema of the first listed tool of that name;
    tools listed before it under other names, and any later tool of the
    same name, play no part. *)
Theorem call_uses_first_matching_schema srv host port docker_image before
    selected after schema tool_args :
  established srv → listings_caught srv →
  list_tools srv = Ok (before ++ selected :: after) →
  Tool.name selected ≠ "" →
  (∀ t, t ∈ before → Tool.name t ≠ Tool.name selected) →
  Tool.inputSchema selected = Some schema → schema ≠ ∅ →
  synthesize_schema schema = Ok tool_args →
  tool_calls (trace (demo_stdio_client srv host port docker_image
                       (Some (Tool.name selected)) false))
  = [(Tool.name selected, tool_args)].
Proof.
  intros Hup Hcaught Htools Hname Hbefore Hschema Hne Hargs.
  rewrite demo_stdio_client_tool_calls by done.
  unfold planned_call. rewrite select_named, str_truthy_ne by done.
  rewrite Htools. simpl listed.
  rewrite (synthesize_listed _ _ selected schema); try done.
  - by rewrite Hargs.
  - by apply find_tool_first.
Qed.

Lemma call_uses_first_matching_schema_witness :
  tool_calls (trace (demo_stdio_client shadowing_server "host" 8811 "img"
                       (Some "a") false))
  = [("a", {[ "city" := PyStr "example"; "count" := PyInt 42;
              "ratio" := PyFloat 3.14%float ]})].
Proof.
  apply (call_uses_first_matching_schema shadowing_server "host" 8811 "img"
           [tool_b] tool_a
           [Tool.mk "a" None (Some {[ "properties" := PyStr "none" ]})]
           sample_schema); try done.
  intros t ->%list_elem_of_singleton. discriminate.
Defined.

(** ** The HTTP flow as a whole *)

(** X11: on an established HTTP session whose tool listing and tool call
    raise nothing but [Exception]s, the requests are the handshake, the
    tool listing, the call to the first listed tool if there is one, and
    the resource listing: a failed tool listing or tool call never keeps
    the resources from being listed. *)
Theorem http_requests_in_order srv server_url :
  established srv → caught (list_tools srv) →
  (∀ first rest, list_tools srv = Ok (first :: rest) →
     caught (call_tool srv (Tool.name first)
               (http_arguments (Tool.name first)))) →
  requests (trace (demo_http_client srv server_url)) =
  [Initialize; ListTools] ++
  match list_tools srv with
  | Ok (first :: _) =>
      [CallTool (Tool.name first) (http_arguments (Tool.name first))]
  | _ => []
  end ++ [ListResources].
Proof.
  intros (Ht & Hs & Hi)%established_fields Htools Hcall. unfold requests.
  rewrite (demo_http_client_proj request_of) by done.
  rewrite Ht, Hs, (http_session_proj request_of) by done.
  rewrite Hi, (http_tools_proj request_of), http_tools_ending by done.
  destruct (list_tools srv) as [[| first rest] | e]; simpl.
  - done.
  - specialize (Hcall first rest eq_refl).
    by rewrite guarded_caught.
  - simpl in Htools. by destruct (is_Exception e).
Qed.

Lemma http_requests_in_order_witness :
  requests (trace (demo_http_client echo_server "http://localhost:8000/mcp"))
    = [Initialize; ListTools;
       CallTool "EchoTool" {[ "message" := PyStr "Hello via HTTP!" ]};
       ListResources] ∧
  requests (trace (demo_http_client unlisting_server
                     "http://localhost:8000/mcp"))
    = [Initialize; ListTools; ListResources].
Proof.
  split.
  - apply (http_requests_in_order echo_server "http://localhost:8000/mcp"
             I I).
    by intros first rest [= <- <-].
  - by apply (http_requests_in_order unlisting_server
                "http://localhost:8000/mcp" I I).
Defined.

Lemma no_prompt_listing t :
  omap prompt_listing_of t = [] → ListPrompts ∉ requests t.
Proof.
  induction t as [| ev t IH]; simpl; [intros _; apply not_elem_of_nil |].
  destruct ev as [| | | | | | r]; try done.
  destruct r; simpl; try done;
    intros H ?%elem_of_cons; destruct_or!; try done; by apply IH.
Qed.

(** X12: the HTTP flow never lists prompts and never registers a sampling
    callback, whatever the server does: its sessions are opened without
    one. *)
Theorem http_lists_no_prompts_and_registers_no_callback srv server_url :
  (ListPrompts ∉ requests (trace (demo_http_client srv server_url))) ∧
  (∀ callback,
     callback ∈ session_callbacks (trace (demo_http_client srv server_url)) →
     callback = None).
Proof.
  split.
  - apply no_prompt_listing.
    rewrite (demo_http_client_proj prompt_listing_of) by done.
    rewrite (http_session_proj prompt_listing_of) by done.
    rewrite (http_tools_proj prompt_listing_of) by done.
    destruct (transport_enter srv), (session_enter srv), (initialize srv);
      try done.
    destruct (list_tools srv) as [[| first rest] | e];
      by destruct (ending _).
  - intros callback. unfold session_callbacks.
    rewrite (demo_http_client_proj session_callback_of) by done.
    rewrite (http_session_quiet session_callback_of) by done.
    destruct (transport_enter srv), (session_enter srv); simpl;
      rewrite ?elem_of_nil, ?list_elem_of_singleton; done.
Qed.
